(** * GIS format converter: the conversion pipeline of [app.py]

    The application is a thin layer over geopandas, shapely, pyproj and the
    GDAL drivers.  This development embeds the non-UI helpers of [app.py]
    (ingestion, geometry conditioning, reprojection, export and the batch
    loop) as functions over an explicit data model.  The external library
    is taken as a set of section variables: each library call the helpers
    make is one variable, returning [Ok] or [Raise] where the Python call
    may raise. *)

From Stdlib Require Import Ascii QArith.
From stdpp Require Import base option list strings pretty gmap.

Local Open Scope Z_scope.
Local Open Scope nat_scope.

(** ** Python strings

    A Python [str] is modelled by the [string] of its UTF-8 bytes.  [len]
    and [take_chars] count characters (code points), as [len(s)] and
    [s[:n]] do; [take], [drop] and [rfind] work on byte offsets, which is
    the same thing wherever the offset is that of an ASCII character found
    in the string.  [lower] maps the ASCII letters. *)

Module PyStr.

(** [s[:n]] for a byte offset [n] *)
Fixpoint take (n : nat) (s : string) : string :=
  match n, s with
  | S n', String a s' => String a (take n' s')
  | _, _ => EmptyString
  end.

(** [s[n:]] for a byte offset [n] *)
Fixpoint drop (n : nat) (s : string) : string :=
  match n, s with
  | S n', String _ s' => drop n' s'
  | _, _ => s
  end.

(** A byte [10xxxxxx]: it continues the character begun before it. *)
Definition is_continuation (a : ascii) : bool :=
  let n := Ascii.nat_of_ascii a in (128 <=? n) && (n <? 192).

(** [len(s)]: the number of characters, one per byte that begins one. *)
Fixpoint len (s : string) : nat :=
  match s with
  | EmptyString => 0
  | String a s' => if is_continuation a then len s' else S (len s')
  end.

(** [s[:n]]: the first [n] characters, each with all its bytes. *)
Fixpoint take_chars (n : nat) (s : string) : string :=
  match s with
  | EmptyString => EmptyString
  | String a s' =>
      if is_continuation a then String a (take_chars n s')
      else match n with
           | 0 => EmptyString
           | S n' => String a (take_chars n' s')
           end
  end.

Definition lower_ascii (a : ascii) : ascii :=
  let n := Ascii.nat_of_ascii a in
  if (65 <=? n) && (n <=? 90) then Ascii.ascii_of_nat (n + 32) else a.

(** [s.lower()] *)
Fixpoint lower (s : string) : string :=
  match s with
  | EmptyString => EmptyString
  | String a s' => String (lower_ascii a) (lower s')
  end.

(** [s.rfind(c)], [None] standing for [-1] *)
Fixpoint rfind (c : ascii) (s : string) : option nat :=
  match s with
  | EmptyString => None
  | String a s' =>
      match rfind c s' with
      | Some i => Some (S i)
      | None => if Ascii.eqb a c then Some 0 else None
      end
  end.

(** [s.endswith(suf)] *)
Definition endswith (suf s : string) : bool :=
  (String.length suf <=? String.length s)
  && String.eqb (drop (String.length s - String.length suf) s) suf.

(** ["\n".join(lines)] *)
Fixpoint join_lines (lines : list string) : string :=
  match lines with
  | [] => EmptyString
  | [l] => l
  | l :: ls => l +:+ String "010"%char (join_lines ls)
  end.

(** The last character of a string, if any. *)
Fixpoint last_char (s : string) : option ascii :=
  match s with
  | EmptyString => None
  | String a EmptyString => Some a
  | String _ s' => last_char s'
  end.

End PyStr.

(** ** File names ([pathlib])

    Uploaded files carry a bare file name, so a path is modelled by its
    final component. *)

Module PyPath.

(** [PurePath.suffix]: the part of the name from its last dot, when that
    dot is neither the first nor the last character. *)
Definition suffix (name : string) : string :=
  match PyStr.rfind "."%char name with
  | Some i =>
      if (0 <? i) && (i <? String.length name - 1)
      then PyStr.drop i name else EmptyString
  | None => EmptyString
  end.

(** [PurePath.stem]: the name without its suffix. *)
Definition stem (name : string) : string :=
  match PyStr.rfind "."%char name with
  | Some i =>
      if (0 <? i) && (i <? String.length name - 1)
      then PyStr.take i name else name
  | None => name
  end.

(** The final component of a [/]-separated relative path. *)
Definition basename (p : string) : string :=
  match PyStr.rfind "/"%char p with
  | Some i => PyStr.drop (S i) p
  | None => p
  end.

(** [fnmatch(name, "*.shp")], case-sensitive as on POSIX. *)
Definition matches_shp (p : string) : bool :=
  PyStr.endswith ".shp" (basename p).

End PyPath.

(** ** Exceptions *)

Inductive exn : Type :=
| ValueError (msg : string)
| RuntimeError (msg : string)
| ImportError (msg : string)
| LibraryError (msg : string).

(** [str(e)] *)
Definition str_exn (e : exn) : string :=
  match e with
  | ValueError m | RuntimeError m | ImportError m | LibraryError m => m
  end.

(** The outcome of a call that may raise. *)
Inductive Exc (A : Type) : Type :=
| Ok (a : A)
| Raise (e : exn).
Arguments Ok {A} a.
Arguments Raise {A} e.

#[global] Instance Exc_ret : MRet Exc := fun A a => Ok a.
#[global] Instance Exc_bind : MBind Exc := fun A B f m =>
  match m with
  | Ok a => f a
  | Raise e => Raise e
  end.

Definition is_ok {A} (m : Exc A) : bool :=
  match m with Ok _ => true | Raise _ => false end.

(** [[f(x) for x in l]], stopping at the first exception. *)
Fixpoint traverse {A B} (f : A -> Exc B) (l : list A) : Exc (list B) :=
  match l with
  | [] => Ok []
  | x :: l' => y ← f x; ys ← traverse f l'; Ok (y :: ys)
  end.

(** ** Data model *)

(** A scalar attribute value; [CNaN] is the missing value ([NaN]/[None]).
    Numbers are modelled by rationals. *)
Inductive Cell : Type :=
| CNum (x : Q)
| CStr (s : string)
| CNaN.

(** A pandas [DataFrame]: column labels and rows of cells. *)
Record DataFrame : Type := {
  df_columns : list string;
  df_rows : list (list Cell)
}.

(** One row of a [GeoDataFrame]: attribute values and the geometry. *)
Record Feature (Geometry : Type) : Type := {
  attrs : list Cell;
  geom : Geometry
}.
Arguments attrs {Geometry} f.
Arguments geom {Geometry} f.

(** A geopandas [GeoDataFrame].  [columns] holds the attribute columns;
    the geometry column, named [geometry], comes last (see
    [all_columns]). *)
Record GeoDataFrame (Geometry CRS : Type) : Type := {
  columns : list string;
  features : list (Feature Geometry);
  crs : option CRS
}.
Arguments columns {Geometry CRS} g.
Arguments features {Geometry CRS} g.
Arguments crs {Geometry CRS} g.

(** The files of a directory, by relative path, in the order in which the
    directory is enumerated. *)
Abbreviation Listing := (list (string * string)).

(** An uploaded file ([UploadedFile]): its name and its bytes. *)
Record Upload : Type := {
  name : string;
  getbuffer : string
}.

(** The sidebar and format widgets of [app.py], read by the helpers as
    module-level names. *)
Record Settings : Type := {
  target_epsg : string;
  do_make_valid : bool;
  use_buffer_fix : bool;
  do_simplify : bool;
  simplify_tol : Q;
  auto_rename_fields : bool;
  out_fmt : string
}.

(** ** The external libraries

    One field per library call made by the helpers of [app.py]. *)
Class External (Geometry CRS : Type) : Type := {
  (** builtins: [int(s)], [None] when it raises; [f"{x}"] of a float *)
  py_int : string -> option Z;
  float_str : Q -> string;
  (** pyproj: [crs.to_epsg()], [CRS.from_user_input] of an EPSG code and of
      a string, [str(crs)], and the coordinate transformation of
      one geometry between two reference systems *)
  to_epsg : CRS -> option Z;
  crs_from_epsg : Z -> Exc CRS;
  crs_from_string : string -> Exc CRS;
  crs_str : CRS -> string;
  transform : CRS -> CRS -> Geometry -> Exc Geometry;
  (** shapely: [Point((x, y))]; [make_valid], [None] when its import
      failed; [buffer(d)]; [simplify(tol, preserve_topology=True)] *)
  Point : Q -> Q -> Geometry;
  make_valid : option (Geometry -> Exc Geometry);
  buffer : Q -> Geometry -> Exc Geometry;
  simplify : Q -> Geometry -> Exc Geometry;
  (** pandas: [read_csv] and [read_excel] of a file's bytes, and
      [to_numeric] of one string cell, [None] when it does not parse *)
  read_csv : string -> Exc DataFrame;
  read_excel : string -> Exc DataFrame;
  to_numeric_str : string -> option Q;
  (** geopandas: [read_file] of a path in a directory; [to_json];
      [to_file] with a driver, giving the files of the target's folder
      after the write *)
  read_file : Listing -> string -> Exc (GeoDataFrame Geometry CRS);
  to_json : GeoDataFrame Geometry CRS -> Exc string;
  to_file : GeoDataFrame Geometry CRS -> string -> string -> Exc Listing;
  (** zipfile: [extractall] of an archive's bytes, giving the entries of the
      target directory in the order [rglob] enumerates them; and the bytes
      of a deflated archive written entry by entry *)
  extractall : string -> Exc Listing;
  zip_deflated : Listing -> string
}.

(** ** Formats (lines 50-68) *)

Definition VEC_INPUTS : list (string * string) :=
  [ (".zip", "ESRI Shapefile (zipped)");
    (".geojson", "GeoJSON");
    (".json", "GeoJSON");
    (".kml", "KML");
    (".gpkg", "GeoPackage");
    (".gml", "GML (basic)");
    (".gpx", "GPX");
    (".dxf", "DXF (CAD basic)") ].

Definition TAB_INPUTS : list (string * string) :=
  [ (".csv", "CSV"); (".xlsx", "Excel") ].

Definition OUTPUTS : list (string * string) :=
  [ ("geojson", "GeoJSON (.geojson)");
    ("shapefile", "ESRI Shapefile (.zip)");
    ("kml", "KML (.kml)");
    ("gpkg", "GeoPackage (.gpkg)");
    ("gpx", "GPX (.gpx)") ].

(** [k in d] for a dict [d] *)
Definition dict_mem (k : string) (d : list (string * string)) : bool :=
  bool_decide (k ∈ d.*1).

(** [x or d] for strings: the empty string is falsy. *)
Definition str_or (x d : string) : string :=
  if decide (x = EmptyString) then d else x.

(** [path.read_bytes()] / [open(path)] in a directory listing. *)
Definition file_bytes (dir : Listing) (path : string) : Exc string :=
  match list_find (fun e => e.1 = path) dir with
  | Some (_, e) => Ok e.2
  | None => Raise (LibraryError "No such file or directory")
  end.

Section Helpers.

Context {Geometry CRS : Type} {lib : External Geometry CRS}.

Local Abbreviation GDF := (GeoDataFrame Geometry CRS).

(** *** geopandas operations on a frame

    These follow geopandas: each acts on the geometry column (or the
    CRS, or the column labels) and leaves the rest of the frame alone. *)

(** [list(gdf.columns)] *)
Definition all_columns (gdf : GDF) : list string :=
  columns gdf ++ ["geometry"].

Definition with_geom (f : Feature Geometry) (g : Geometry) : Feature Geometry :=
  {| attrs := attrs f; geom := g |}.

(** [gdf["geometry"] = gdf.geometry.apply(op)] and the vectorised
    [gdf.buffer(d)], [gdf.geometry.simplify(tol)]: [op] on every
    geometry, then the column assignment; nothing is assigned when [op]
    raises. *)
Definition assign_geometry (op : Geometry -> Exc Geometry) (gdf : GDF) : Exc GDF :=
  fs ← traverse (fun f => g ← op (geom f); Ok (with_geom f g)) (features gdf);
  Ok {| columns := columns gdf; features := fs; crs := crs gdf |}.

(** [gdf.set_crs(code, allow_override=True)]: a new label, the
    coordinates as they are. *)
Definition set_crs (gdf : GDF) (code : Z) : Exc GDF :=
  dst ← crs_from_epsg code;
  Ok {| columns := columns gdf; features := features gdf; crs := Some dst |}.

(** [gdf.to_crs(code)] *)
Definition to_crs (gdf : GDF) (code : Z) : Exc GDF :=
  match crs gdf with
  | None => Raise (ValueError "Cannot transform naive geometries.")
  | Some src =>
      dst ← crs_from_epsg code;
      fs ← traverse (fun f => g ← transform src dst (geom f); Ok (with_geom f g))
                    (features gdf);
      Ok {| columns := columns gdf; features := fs; crs := Some dst |}
  end.

(** [gdf.rename(columns=mapping)]: every label that is a key of
    [mapping] is replaced.  The keys built by [_truncate_fields_for_shp]
    are longer than 10 characters, so [geometry] is never one. *)
Definition rename (mapping : gmap string string) (gdf : GDF) : GDF :=
  {| columns := (fun c => default c (mapping !! c)) <$> columns gdf;
     features := features gdf;
     crs := crs gdf |}.

(** *** pandas operations on a table *)

Definition col_index (c : string) (cols : list string) : option nat :=
  fst <$> list_find (fun x => x = c) cols.

Definition cell_at (i : nat) (row : list Cell) : Cell :=
  default CNaN (row !! i).

Definition isna (c : Cell) : bool :=
  match c with CNaN => true | _ => false end.

(** [df.dropna(subset=[a, b])] with the columns given by position *)
Definition dropna (i j : nat) (rows : list (list Cell)) : list (list Cell) :=
  filter (fun r => negb (isna (cell_at i r)) && negb (isna (cell_at j r))) rows.

(** [pd.to_numeric(v, errors="coerce")] on one cell *)
Definition to_numeric_cell (c : Cell) : Cell :=
  match c with
  | CNum x => CNum x
  | CStr s => match to_numeric_str s with Some x => CNum x | None => CNaN end
  | CNaN => CNaN
  end.

(** [df[c] = pd.to_numeric(df[c], errors="coerce")] *)
Definition coerce_column (i : nat) (rows : list (list Cell)) : list (list Cell) :=
  (fun r => <[i := to_numeric_cell (cell_at i r)]> r) <$> rows.

(** The number held by a cell; [Point] raises on anything else. *)
Definition cell_number (c : Cell) : Exc Q :=
  match c with
  | CNum x => Ok x
  | _ => Raise (LibraryError "a number is required")
  end.

(** *** Ingestion (lines 248-287) *)

Definition _unzip_if_shapefile (dir : Listing) (p : string) : Exc (option Listing) :=
  if negb (String.eqb (PyStr.lower (PyPath.suffix p)) ".zip") then Ok None
  else
    content ← file_bytes dir p;
    work ← extractall content;
    Ok (Some work).

Definition _read_vector_any (dir : Listing) (path : string) : Exc GDF :=
  if String.eqb (PyStr.lower (PyPath.suffix path)) ".zip" then
    shp_dir ← _unzip_if_shapefile dir path;
    match shp_dir with
    | None => Raise (ValueError "Failed to unpack shapefile .zip")
    | Some work =>
        let shp_files := filter (fun p => PyPath.matches_shp p = true) work.*1 in
        match shp_files with
        | [] => Raise (ValueError "No .shp found inside the uploaded .zip")
        | shp :: _ => read_file work shp
        end
    end
  else read_file dir path.

Definition _read_csv_points (dir : Listing) (path lat_col lon_col src_epsg : string)
  : Exc GDF :=
  df ← (if String.eqb (PyStr.lower (PyPath.suffix path)) ".csv"
        then content ← file_bytes dir path; read_csv content
        else
          content ← file_bytes dir path;
          match read_excel content with
          | Raise (ImportError _) =>
              Raise (RuntimeError
                       "Reading .xlsx needs 'openpyxl'. Install it or export CSV.")
          | r => r
          end);
  match col_index lat_col (df_columns df), col_index lon_col (df_columns df) with
  | Some ilat, Some ilon =>
      let rows := dropna ilat ilon (df_rows df) in
      let rows := coerce_column ilat rows in
      let rows := coerce_column ilon rows in
      let rows := dropna ilat ilon rows in
      fs ← traverse
             (fun r =>
                x ← cell_number (cell_at ilon r);
                y ← cell_number (cell_at ilat r);
                Ok {| attrs := r; geom := Point x y |})
             rows;
      c ← crs_from_string ("EPSG:" +:+ src_epsg);
      Ok {| columns := df_columns df; features := fs; crs := Some c |}
  | _, _ => Raise (ValueError "Selected Lat/Lon columns not found.")
  end.

(** *** Geometry conditioning (lines 290-310)

    The function assigns to the geometry column of the frame it is
    given and returns that frame; the updated value is returned here. *)

Definition _apply_repairs_and_ops (s : Settings) (gdf : GDF) : GDF * list string :=
  let notes : list string := [] in
  let '(gdf, notes) :=
    match do_make_valid s, make_valid with
    | true, Some mv =>
        match assign_geometry mv gdf with
        | Ok gdf' => (gdf', notes ++ ["Applied make_valid."])
        | Raise e => (gdf, notes ++ ["make_valid failed: " +:+ str_exn e])
        end
    | _, _ => (gdf, notes)
    end in
  let '(gdf, notes) :=
    if use_buffer_fix s then
      match assign_geometry (buffer 0) gdf with
      | Ok gdf' => (gdf', notes ++ ["Applied buffer(0) fix."])
      | Raise e => (gdf, notes ++ ["buffer(0) failed: " +:+ str_exn e])
      end
    else (gdf, notes) in
  let '(gdf, notes) :=
    if do_simplify s && negb (Qle_bool (simplify_tol s) 0) then
      match assign_geometry (simplify (simplify_tol s)) gdf with
      | Ok gdf' =>
          (gdf', notes ++ ["Simplified (tol=" +:+ float_str (simplify_tol s) +:+ ")."])
      | Raise e => (gdf, notes ++ ["Simplify failed: " +:+ str_exn e])
      end
    else (gdf, notes) in
  (gdf, notes).

(** *** Reprojection (lines 313-326) *)

Definition _reproject (gdf : GDF) (epsg : string) : GDF * option string :=
  match py_int epsg with
  | None => (gdf, Some "Invalid target EPSG; kept original CRS.")
  | Some tgt =>
      match crs gdf with
      | None => (gdf, Some "Source CRS unknown; cannot reproject.")
      | Some c =>
          if decide (to_epsg c = Some tgt) then (gdf, None)
          else
            match to_crs gdf tgt with
            | Ok gdf' => (gdf', Some ("Reprojected to EPSG:" +:+ pretty tgt +:+ "."))
            | Raise e => (gdf, Some ("Reprojection failed: " +:+ str_exn e))
            end
      end
  end.

End Helpers.

Section Exporting.

Context {Geometry CRS : Type} {lib : External Geometry CRS}.

Local Abbreviation GDF := (GeoDataFrame Geometry CRS).

(** *** Shapefile field names (lines 329-337) *)

Definition shp_warning (c newc : string) : string :=
  "Field '" +:+ c +:+ "' → '" +:+ newc +:+ "' (Shapefile 10-char limit)".

(** The body of the loop over the columns (lines 333-336). *)
Definition truncate_field (acc : gmap string string * list string) (c : string)
  : gmap string string * list string :=
  let '(mapping, warnings) := acc in
  if 10 <? PyStr.len c then
    let newc := PyStr.take_chars 10 c in
    (<[c := newc]> mapping, warnings ++ [shp_warning c newc])
  else (mapping, warnings).

Definition _truncate_fields_for_shp (cols : list string)
  : gmap string string * list string :=
  foldl truncate_field (∅, []) cols.

(** *** Export (lines 340-392)

    The first component of the result is the local list [msgs] when the
    function exits; the second is what the caller sees: the returned
    tuple [(bytes, name, msgs)] or the exception raised. *)

(** Lines 356-360: the CRS label forced before the KML write; an
    exception of the relabel is discarded. *)
Definition kml_relabel (gdf : GDF) : GDF :=
  let not_wgs84 :=
    match crs gdf with
    | None => true
    | Some c => bool_decide (to_epsg c ≠ Some 4326%Z)
    end in
  if not_wgs84
  then match set_crs gdf 4326 with Ok gdf' => gdf' | Raise _ => gdf end
  else gdf.

(** Lines 378-381: the rename applied before the Shapefile write. *)
Definition shp_rename (s : Settings) (gdf : GDF) (msgs : list string)
  : GDF * list string :=
  let '(mapping, warns) := _truncate_fields_for_shp (all_columns gdf) in
  if auto_rename_fields s && bool_decide (mapping ≠ ∅)
  then (rename mapping gdf, msgs ++ warns)
  else (gdf, msgs).

Definition _gdf_to_bytes (s : Settings) (gdf : GDF) (out_fmt base : string)
  : list string * Exc (string * string * list string) :=
  let out_fmt := PyStr.lower out_fmt in
  let msgs : list string := [] in
  if String.eqb out_fmt "geojson" then
    (msgs, js ← to_json gdf; Ok (js, base +:+ ".geojson", msgs))
  else if String.eqb out_fmt "gpkg" then
    let path := base +:+ ".gpkg" in
    (msgs, out_dir ← to_file gdf path "GPKG";
           b ← file_bytes out_dir path;
           Ok (b, path, msgs))
  else if String.eqb out_fmt "kml" then
    let path := base +:+ ".kml" in
    let gdf := kml_relabel gdf in
    match to_file gdf path "KML" with
    | Raise e =>
        let msgs :=
          msgs ++ ["KML write failed (" +:+ str_exn e +:+ "); use GeoJSON/GPKG instead."] in
        (msgs, Raise e)
    | Ok out_dir => (msgs, b ← file_bytes out_dir path; Ok (b, path, msgs))
    end
  else if String.eqb out_fmt "gpx" then
    let path := base +:+ ".gpx" in
    match to_file gdf path "GPX" with
    | Raise e =>
        let msgs :=
          msgs ++ ["GPX write failed (" +:+ str_exn e +:+ "); use GeoJSON/GPKG instead."] in
        (msgs, Raise e)
    | Ok out_dir => (msgs, b ← file_bytes out_dir path; Ok (b, path, msgs))
    end
  else if String.eqb out_fmt "shapefile" then
    let '(gdf, msgs) := shp_rename s gdf msgs in
    let shp_path := base +:+ ".shp" in
    (msgs, shp_folder ← to_file gdf shp_path "ESRI Shapefile";
           Ok (zip_deflated shp_folder, base +:+ ".zip", msgs))
  else
    (msgs, Raise (ValueError ("Unsupported output format: " +:+ out_fmt))).

(** *** The batch loop (lines 449-488) *)

(** [_save_upload_to] in a fresh scratch directory: the directory then
    holds the upload under its own name. *)
Definition _save_upload_to (file : Upload) : Listing * string :=
  ([(name file, getbuffer file)], name file).

Definition crs_repr (c : option CRS) : string :=
  match c with Some c => crs_str c | None => "None" end.

Definition report_name (name_stem : string) : string :=
  name_stem +:+ "_report.txt".

(** The body of the [try] (lines 471-481): the archive and the report
    lines as they stand when the block is left, normally or by an
    exception, which the handler of line 482 turns into a report line. *)
Definition convert_job (s : Settings) (z : Listing) (report_lines : list string)
    (temp_dir : Listing) (src_path name_stem : string) : Listing * list string :=
  match _read_vector_any temp_dir src_path with
  | Raise e => (z, report_lines ++ ["Read/Process failed: " +:+ str_exn e])
  | Ok gdf =>
      let report_lines :=
        report_lines ++
          ["Loaded vector with " +:+ pretty (length (features gdf))
             +:+ " features. CRS=" +:+ crs_repr (crs gdf) +:+ "."] in
      let '(gdf, notes) := _apply_repairs_and_ops s gdf in
      let report_lines := report_lines ++ notes in
      let '(gdf, reproj_note) := _reproject gdf (target_epsg s) in
      let report_lines :=
        match reproj_note with
        | Some n => if decide (n = EmptyString) then report_lines
                    else report_lines ++ [n]
        | None => report_lines
        end in
      match (_gdf_to_bytes s gdf (out_fmt s) name_stem).2 with
      | Raise e => (z, report_lines ++ ["Read/Process failed: " +:+ str_exn e])
      | Ok (out_bytes, out_name, msgs) =>
          let report_lines := report_lines ++ msgs in
          let z := z ++ [(out_name, out_bytes)] in
          (z, report_lines ++ ["Exported: " +:+ out_name])
      end
  end.

(** One iteration of the loop over the uploaded files: the state is the
    result archive [z] and the list [reports]. *)
Definition batch_iteration (s : Settings) (st : Listing * list (string * string))
    (uf : Upload) : Listing * list (string * string) :=
  let '(z, reports) := st in
  let '(temp_dir, src_path) := _save_upload_to uf in
  let name_stem := PyPath.stem (name uf) in
  let report_lines : list string := [] in
  let ext := PyStr.lower (PyPath.suffix src_path) in
  if dict_mem ext TAB_INPUTS then
    let report_lines :=
      report_lines ++
        ["Skipped: CSV/XLSX needs column mapping in single-file wizard mode."] in
    let rep_text := str_or (PyStr.join_lines report_lines) "No details." in
    let rep_name := report_name name_stem in
    (z ++ [(rep_name, rep_text)], reports ++ [(rep_name, rep_text)])
  else
    let '(z, report_lines) := convert_job s z report_lines temp_dir src_path name_stem in
    let rep_text := str_or (PyStr.join_lines report_lines) "No details." in
    let rep_name := report_name name_stem in
    (z ++ [(rep_name, rep_text)], reports ++ [(rep_name, rep_text)]).

(** The whole batch: the entries of the result archive and [reports]. *)
Definition do_batch (s : Settings) (uploaded_files : list Upload)
  : Listing * list (string * string) :=
  foldl (batch_iteration s) ([], []) uploaded_files.

End Exporting.

(** ** Vocabulary of the properties *)

Section Vocabulary.

Context {Geometry CRS : Type} {lib : External Geometry CRS}.

Local Abbreviation GDF := (GeoDataFrame Geometry CRS).

(** What conditioning and reprojection must leave alone: the column
    labels, the number of features and every attribute value. *)
Definition same_frame (g g' : GDF) : Prop :=
  columns g' = columns g
  /\ length (features g') = length (features g)
  /\ attrs <$> features g' = attrs <$> features g.

(** One conditioning stage that ran: either the operation succeeded and
    its success note was appended, or it raised, the frame is as before
    and the failure note with the exception's text was appended. *)
Inductive stage_ran (op : GDF -> Exc GDF) (applied failed : string)
  : GDF * list string -> GDF * list string -> Prop :=
| stage_applied g g' notes :
    op g = Ok g' ->
    stage_ran op applied failed (g, notes) (g', notes ++ [applied])
| stage_failed g e notes :
    op g = Raise e ->
    stage_ran op applied failed (g, notes) (g, notes ++ [failed +:+ str_exn e]).

(** A stage that is switched off leaves frame and notes as they are. *)
Definition stage (enabled : bool) (op : GDF -> Exc GDF) (applied failed : string)
    (st st' : GDF * list string) : Prop :=
  if enabled then stage_ran op applied failed st st' else st' = st.

Definition make_valid_enabled (s : Settings) : bool :=
  do_make_valid s && bool_decide (is_Some make_valid).

Definition make_valid_op (gdf : GDF) : Exc GDF :=
  match make_valid with
  | Some mv => assign_geometry mv gdf
  | None => Ok gdf
  end.

Definition simplify_enabled (s : Settings) : bool :=
  do_simplify s && negb (Qle_bool (simplify_tol s) 0).

Definition enabled_stages (s : Settings) : nat :=
  (if make_valid_enabled s then 1 else 0)
  + (if use_buffer_fix s then 1 else 0)
  + (if simplify_enabled s then 1 else 0).

(** The feature a table row stands for, in the words of the
    specification: the row is dropped when its latitude or longitude is
    missing or not numeric after coercion, and gives the point
    [(lon, lat)] otherwise. *)
Definition point_of_row (ilat ilon : nat) (r : list Cell) : option (Feature Geometry) :=
  match to_numeric_cell (cell_at ilat r), to_numeric_cell (cell_at ilon r) with
  | CNum y, CNum x =>
      Some {| attrs := <[ilon := CNum x]> (<[ilat := CNum y]> r); geom := Point x y |}
  | _, _ => None
  end.

(** A row that passed the first [dropna], after both coercions. *)
Definition coerced (ilat ilon : nat) (r : list Cell) : list Cell :=
  let r1 := <[ilat := to_numeric_cell (cell_at ilat r)]> r in
  <[ilon := to_numeric_cell (cell_at ilon r1)]> r1.

(** Shapefile field names: the name a column gets, and whether it is
    too long. *)
Definition too_long (c : string) : bool := 10 <? PyStr.len c.

Definition shp_name (c : string) : string :=
  if too_long c then PyStr.take_chars 10 c else c.

(** The fixed note of a tabular job in batch mode (line 465). *)
Definition skip_note : string :=
  "Skipped: CSV/XLSX needs column mapping in single-file wizard mode.".

(** Entries of the result archive: reports are told from output
    artifacts by their name. *)
Definition is_report (e : string * string) : bool :=
  PyStr.endswith "_report.txt" e.1.

Definition is_tabular (uf : Upload) : bool :=
  dict_mem (PyStr.lower (PyPath.suffix (name uf))) TAB_INPUTS.

(** The job is not tabular and loading its file raises. *)
Definition fails_at_ingestion (uf : Upload) : bool :=
  negb (is_tabular uf)
  && negb (is_ok (_read_vector_any (_save_upload_to uf).1 (_save_upload_to uf).2)).

(** The export result of a job whose file loads. *)
Definition export_of (s : Settings) (uf : Upload) (gdf : GDF)
  : Exc (string * string * list string) :=
  let gdf1 := (_apply_repairs_and_ops s gdf).1 in
  let gdf2 := (_reproject gdf1 (target_epsg s)).1 in
  (_gdf_to_bytes s gdf2 (out_fmt s) (PyPath.stem (name uf))).2.

(** The job is not tabular, its file loads, and the export raises. *)
Definition fails_at_export (s : Settings) (uf : Upload) : bool :=
  negb (is_tabular uf)
  && match _read_vector_any (_save_upload_to uf).1 (_save_upload_to uf).2 with
     | Ok gdf => negb (is_ok (export_of s uf gdf))
     | Raise _ => false
     end.

(** The whole pipeline of the job goes through. *)
Definition job_succeeds (s : Settings) (uf : Upload) : bool :=
  negb (is_tabular uf)
  && match _read_vector_any (_save_upload_to uf).1 (_save_upload_to uf).2 with
     | Ok gdf => is_ok (export_of s uf gdf)
     | Raise _ => false
     end.

(** What one job adds to the archive and to [reports]. *)
Definition job_entries (s : Settings) (uf : Upload) : Listing :=
  (batch_iteration s ([], []) uf).1.

Definition job_report (s : Settings) (uf : Upload) : list (string * string) :=
  (batch_iteration s ([], []) uf).2.

Definition count {A} (p : A -> bool) (l : list A) : nat :=
  length (filter (fun x => p x = true) l).

Definition is_output (e : string * string) : bool := negb (is_report e).

(** The name of the report of a job. *)
Definition report_of (uf : Upload) : string :=
  report_name (PyPath.stem (name uf)).


(** The note recorded when the KML or GPX driver fails. *)
Definition driver_failure_note (label : string) (e : exn) : string :=
  label +:+ " write failed (" +:+ str_exn e +:+ "); use GeoJSON/GPKG instead.".

(** A single-file write through a driver that may be missing from the
    GDAL build: on failure the note is recorded and the driver's
    exception raised again. *)
Definition driver_write (gdf : GDF) (base ext driver : string)
  : list string * Exc (string * string * list string) :=
  match to_file gdf (base +:+ ext) driver with
  | Raise e => ([driver_failure_note driver e], Raise e)
  | Ok out_dir =>
      ([], b ← file_bytes out_dir (base +:+ ext); Ok (b, base +:+ ext, []))
  end.

(** The warnings of the Shapefile rename, one per column that is too
    long, in column order. *)
Definition shp_warnings (cols : list string) : list string :=
  (fun c => shp_warning c (PyStr.take_chars 10 c))
    <$> filter (fun c => too_long c = true) cols.

End Vocabulary.

(** ** A concrete library

    A small executable instance of [External], used to run the helpers on
    concrete inputs.  A reference system is its EPSG code; a geometry is a
    point, a ring that may be open, or a geometry moved to another
    reference system. *)

Module Demo.

Inductive Geom : Type :=
| Pt (x y : Q)
| Ring (closed : bool)
| Moved (code : Z) (g : Geom).

Fixpoint digits_value (s : string) (acc : Z) : option Z :=
  match s with
  | EmptyString => Some acc
  | String a s' =>
      let n := Ascii.nat_of_ascii a in
      if (48 <=? n) && (n <=? 57)
      then digits_value s' (10 * acc + Z.of_nat (n - 48))%Z
      else None
  end.

(** Decimal numerals only. *)
Definition int_of_digits (s : string) : option Z :=
  match s with
  | EmptyString => None
  | _ => digits_value s 0%Z
  end.

Definition from_epsg (code : Z) : Exc Z :=
  if ((1024 <=? code) && (code <=? 32767))%Z then Ok code
  else Raise (LibraryError ("Invalid projection: EPSG:" +:+ pretty code)).

Definition from_string (s : string) : Exc Z :=
  match int_of_digits (PyStr.drop 5 s) with
  | Some code => if String.eqb (PyStr.take 5 s) "EPSG:" then from_epsg code
                 else Raise (LibraryError "Invalid projection")
  | None => Raise (LibraryError "Invalid projection")
  end.

(** Points outside the valid latitude range cannot be transformed. *)
Definition move (src dst : Z) (g : Geom) : Exc Geom :=
  match g with
  | Pt x y => if Qle_bool y 90 then Ok (Moved dst g)
              else Raise (LibraryError "latitude out of range")
  | _ => Ok (Moved dst g)
  end.

Definition close_ring (g : Geom) : Exc Geom :=
  match g with
  | Ring _ => Ok (Ring true)
  | _ => Ok g
  end.

(** Buffering an open ring fails. *)
Definition buffer_geom (d : Q) (g : Geom) : Exc Geom :=
  match g with
  | Ring false => Raise (LibraryError "TopologyException")
  | _ => Ok g
  end.

Definition numeric (s : string) : option Q :=
  inject_Z <$> int_of_digits s.

Definition one_feature (label : string) : GeoDataFrame Geom Z :=
  {| columns := ["name"];
     features := [ {| attrs := [CStr label]; geom := Pt 0 0 |} ];
     crs := Some 4326%Z |}.

(** A file is readable when it is not empty; it then holds one point
    labelled by its bytes. *)
Definition read (dir : Listing) (path : string) : Exc (GeoDataFrame Geom Z) :=
  content ← file_bytes dir path;
  if String.eqb content "" then Raise (LibraryError "not recognized as a supported file format")
  else Ok (one_feature content).

(** A table of the CSV scenario: the bytes are not parsed, every CSV is
    the table below. *)
Definition table : DataFrame :=
  {| df_columns := ["lat"; "lon"; "name"];
     df_rows := [ [CNum (129 # 10); CNum (776 # 10); CStr "A"];
                  [CNaN; CNum (776 # 10); CStr "B"];
                  [CNum (130 # 10); CNum (777 # 10); CStr "C"] ] |}.

Definition write (gdf : GeoDataFrame Geom Z) (path driver : string) : Exc Listing :=
  Ok [(path, driver +:+ ":" +:+ pretty (length (features gdf)))].

(** The bytes of a demo archive are the path of its single member. *)
Definition unzip (content : string) : Exc Listing :=
  if String.eqb content "" then Raise (LibraryError "File is not a zip file")
  else Ok [(content, "member")].

Definition zip (entries : Listing) : string :=
  foldr (fun e acc => e.1 +:+ "=" +:+ e.2 +:+ ";" +:+ acc) "" entries.

Definition lib : External Geom Z :=
  {| py_int := int_of_digits;
     float_str := fun q => pretty (Qnum q) +:+ "/" +:+ pretty (Zpos (Qden q));
     to_epsg := Some;
     crs_from_epsg := from_epsg;
     crs_from_string := from_string;
     crs_str := fun c => "EPSG:" +:+ pretty c;
     transform := move;
     Point := Pt;
     make_valid := Some close_ring;
     buffer := buffer_geom;
     simplify := fun _ g => Ok g;
     read_csv := fun _ => Ok table;
     read_excel := fun _ => Raise (ImportError "No module named 'openpyxl'");
     to_numeric_str := numeric;
     read_file := read;
     to_json := fun gdf => Ok ("{features:" +:+ pretty (length (features gdf)) +:+ "}");
     to_file := write;
     extractall := unzip;
     zip_deflated := zip |}.

(** The same library on a GDAL build without the KML and GPX drivers. *)
Definition write_no_kml (gdf : GeoDataFrame Geom Z) (path driver : string)
  : Exc Listing :=
  if String.eqb driver "KML" || String.eqb driver "GPX"
  then Raise (LibraryError ("unsupported driver: " +:+ driver))
  else write gdf path driver.

Definition lib_no_kml : External Geom Z :=
  {| py_int := int_of_digits;
     float_str := fun q => pretty (Qnum q) +:+ "/" +:+ pretty (Zpos (Qden q));
     to_epsg := Some;
     crs_from_epsg := from_epsg;
     crs_from_string := from_string;
     crs_str := fun c => "EPSG:" +:+ pretty c;
     transform := move;
     Point := Pt;
     make_valid := Some close_ring;
     buffer := buffer_geom;
     simplify := fun _ g => Ok g;
     read_csv := fun _ => Ok table;
     read_excel := fun _ => Raise (ImportError "No module named 'openpyxl'");
     to_numeric_str := numeric;
     read_file := read;
     to_json := fun gdf => Ok ("{features:" +:+ pretty (length (features gdf)) +:+ "}");
     to_file := write_no_kml;
     extractall := unzip;
     zip_deflated := zip |}.

Definition settings (fmt : string) : Settings :=
  {| target_epsg := "4326";
     do_make_valid := true;
     use_buffer_fix := false;
     do_simplify := false;
     simplify_tol := 0;
     auto_rename_fields := true;
     out_fmt := fmt |}.

End Demo.

(** ** The rest of [app.py]

    The EPSG search of the sidebar, the column guesses of the CSV wizard,
    the single-file conversion and the Reports tab.  What these show on
    the page is modelled by the list of widgets they emit. *)

Module PyText.

(** [c.isspace()] on ASCII: tab, newline, vertical tab, form feed,
    carriage return, the four separators 28-31 and the space. *)
Definition is_space (a : ascii) : bool :=
  let n := Ascii.nat_of_ascii a in
  ((9 <=? n) && (n <=? 13)) || ((28 <=? n) && (n <=? 32)).

(** [s.lstrip()] *)
Fixpoint lstrip (s : string) : string :=
  match s with
  | EmptyString => EmptyString
  | String a s' => if is_space a then lstrip s' else s
  end.

(** [s.rstrip()] *)
Fixpoint rstrip (s : string) : string :=
  match s with
  | EmptyString => EmptyString
  | String a s' =>
      match rstrip s' with
      | EmptyString => if is_space a then EmptyString else String a EmptyString
      | r => String a r
      end
  end.

(** [s.strip()] *)
Definition strip (s : string) : string := rstrip (lstrip s).

Definition is_digit (a : ascii) : bool :=
  let n := Ascii.nat_of_ascii a in (48 <=? n) && (n <=? 57).

Fixpoint all_digits (s : string) : bool :=
  match s with
  | EmptyString => true
  | String a s' => is_digit a && all_digits s'
  end.

(** [s.isdigit()] on ASCII: not empty and decimal digits only. *)
Definition isdigit (s : string) : bool :=
  match s with
  | EmptyString => false
  | _ => all_digits s
  end.

End PyText.

(** [d[k]] for a dict [d], [None] standing for [KeyError]. *)
Definition dict_get (k : string) (d : list (string * string)) : option string :=
  (fun r => r.2.2) <$> list_find (fun e => e.1 = k) d.

(** What a run of the script puts on the page. *)
Inductive Widget : Type :=
| st_info (body : string)
| st_success (body : string)
| st_warning (body : string)
| st_error (body : string)
| st_code (body : string)
| st_expander (label body : string)
| st_download_button (label data file_name mime : string).

Section Page.

Context {Geometry CRS : Type} {lib : External Geometry CRS}.

Local Abbreviation GDF := (GeoDataFrame Geometry CRS).

(** *** EPSG search (lines 139-173) *)

Definition aliases : list (string * string) :=
  [ ("wgs84", "4326"); ("wgs 84", "4326");
    ("web mercator", "3857"); ("pseudo mercator", "3857"); ("mercator", "3857");
    ("utm 43n", "32643"); ("utm 44n", "32644") ].

(** [pyproj] tells whether [from pyproj import CRS] succeeds. *)
Definition find_epsg_guess (pyproj : bool) (q : string) : option string :=
  if negb pyproj then None
  else
    let q := PyText.strip q in
    if decide (q = EmptyString) then None
    else
      let by_code :=
        if PyText.isdigit q then
          match py_int q with
          | Some code =>
              match crs_from_epsg code with
              | Ok _ => Some q
              | Raise _ => None
              end
          | None => None
          end
        else None in
      match by_code with
      | Some found => Some found
      | None =>
          if dict_mem (PyStr.lower q) aliases then dict_get (PyStr.lower q) aliases
          else
            match crs_from_string q with
            | Ok c =>
                match to_epsg c with
                | Some epsg => if (epsg =? 0)%Z then None else Some (pretty epsg)
                | None => None
                end
            | Raise _ => None
            end
      end.

(** Lines 166-173: the target EPSG after the search box has been read,
    and the message shown. *)
Definition apply_epsg_query (pyproj : bool) (target_epsg epsg_query : string)
  : string * list Widget :=
  if decide (epsg_query = EmptyString) then (target_epsg, [])
  else
    match find_epsg_guess pyproj epsg_query with
    | Some guess =>
        if decide (guess = EmptyString)
        then (target_epsg,
              [st_warning "No EPSG match found. Try a different phrase or code."])
        else (guess,
              [st_success ("Matched EPSG:" +:+ guess +:+ " → applying as target")])
    | None =>
        (target_epsg,
         [st_warning "No EPSG match found. Try a different phrase or code."])
    end.

(** *** Column guesses of the CSV wizard (lines 433-436) *)

(** [next((c for c in cols if str(c).lower() in names), None)] *)
Definition guess_column (names cols : list string) : option string :=
  (fun r => r.2) <$> list_find (fun c => PyStr.lower c ∈ names) cols.

(** [list(cols).index(guess) if guess in cols else 0] *)
Definition selectbox_index (guess : option string) (cols : list string) : nat :=
  match guess with
  | Some g => match list_find (fun c => c = g) cols with
              | Some (i, _) => i
              | None => 0
              end
  | None => 0
  end.

Definition lat_names : list string := ["lat"; "latitude"; "y"].
Definition lon_names : list string := ["lon"; "longitude"; "lng"; "x"].

(** The column a select box of the wizard shows before the user touches
    it. *)
Definition default_column (names cols : list string) : option string :=
  cols !! selectbox_index (guess_column names cols) cols.

(** *** Single-file load and conversion (lines 500-516, 559-586) *)

(** [lat_col and lon_col] with [None] or an empty name falsy. *)
Definition chosen (c : option string) : option string :=
  match c with
  | Some n => if decide (n = EmptyString) then None else Some n
  | None => None
  end.

Definition load_single (dir : Listing) (p : string) (lat_col lon_col : option string)
    (src_epsg_for_csv : string) : option GDF * list Widget :=
  if dict_mem (PyStr.lower (PyPath.suffix p)) TAB_INPUTS then
    match chosen lat_col, chosen lon_col with
    | Some lat, Some lon =>
        match _read_csv_points dir p lat lon (str_or src_epsg_for_csv "4326") with
        | Ok gdf =>
            (Some gdf,
             [st_success ("CSV/XLSX ➜ points using lat=" +:+ lat +:+ ", lon=" +:+ lon
                            +:+ ", srcEPSG=" +:+ src_epsg_for_csv +:+ ".")])
        | Raise e => (None, [st_error ("Could not read file: " +:+ str_exn e)])
        end
    | _, _ =>
        (None,
         [st_info "Select Lat/Lon columns in the wizard above, then press Convert."])
    end
  else
    match _read_vector_any dir p with
    | Ok gdf => (Some gdf, [])
    | Raise e => (None, [st_error ("Could not read file: " +:+ str_exn e)])
    end.

(** Lines 573-579: the MIME type of the download. *)
Definition download_mime (out_fmt : string) : string :=
  if String.eqb out_fmt "geojson" then "application/geo+json"
  else if String.eqb out_fmt "shapefile" then "application/zip"
  else if String.eqb out_fmt "kml" then "application/vnd.google-earth.kml+xml"
  else if String.eqb out_fmt "gpkg" then "application/gpkg"
  else "application/gpx+xml".

(** Lines 565-586: the download offered for the converted frame, or the
    error shown.  The label of the download looks [out_fmt] up in
    [OUTPUTS] inside the [try], so a missing key is reported like a failed
    conversion, with the text of the [KeyError]. *)
Definition offer_download (s : Settings) (gdf2 : GDF) (notes : list string)
    (uf_name : string) : list Widget :=
  let base_default := PyPath.stem uf_name in
  match (_gdf_to_bytes s gdf2 (out_fmt s) base_default).2 with
  | Raise e => [st_error ("Conversion failed: " +:+ str_exn e)]
  | Ok (out_bytes, out_name, msgs) =>
      let notes := notes ++ msgs in
      match dict_get (out_fmt s) OUTPUTS with
      | None => [st_error ("Conversion failed: '" +:+ out_fmt s +:+ "'")]
      | Some label =>
          [st_download_button ("Download " +:+ label) out_bytes out_name
                              (download_mime (out_fmt s))]
          ++ match notes with
             | [] => []
             | _ => [st_code (PyStr.take_chars 4000 (PyStr.join_lines notes))]
             end
          ++ [st_success "Conversion ready."]
      end
  end.

(** Lines 560-586: the body of the button [Convert this file only]. *)
Definition convert_single (s : Settings) (gdf : GDF) (uf_name : string) : list Widget :=
  let '(gdf2, notes) := _apply_repairs_and_ops s gdf in
  let '(gdf2, reproj_note) := _reproject gdf2 (target_epsg s) in
  let notes :=
    match reproj_note with
    | Some n => if decide (n = EmptyString) then notes else notes ++ [n]
    | None => notes
    end in
  offer_download s gdf2 notes uf_name.

(** *** Reports tab (lines 589-609) *)

(** [l[-n:]] for a positive [n] *)
Definition last_n {A} (n : nat) (l : list A) : list A :=
  drop (length l - n) l.

Definition reports_tab (last_reports : list (string * string)) : list Widget :=
  match last_reports with
  | [] => [st_info "Run a conversion to see per-file logs and warnings here."]
  | _ =>
      ((fun r => st_expander r.1 (PyStr.take_chars 8000 r.2)) <$> last_n 5 last_reports)
      ++ [st_download_button "⬇️ Download reports-only ZIP"
                             (zip_deflated last_reports)
                             "conversion_reports.zip" "application/zip"]
  end.

End Page.

(** ** Frames as objects

    [_apply_repairs_and_ops] assigns to the geometry column of the frame
    it is given, and [to_crs] builds a new frame.  Here frames live in a
    store, by address, to tell which object a run changes. *)

Section Store.

Context {Geometry CRS : Type} {lib : External Geometry CRS}.

Local Abbreviation GDF := (GeoDataFrame Geometry CRS).
Local Abbreviation Heap := (gmap nat (GeoDataFrame Geometry CRS)).

(** [gdf["geometry"] = ...] on the object at [l]: the object is updated
    only when the right-hand side has been computed. *)
Definition set_geometry_at (op : Geometry -> Exc Geometry) (l : nat) (h : Heap)
  : Exc Heap :=
  match h !! l with
  | Some gdf => gdf' ← assign_geometry op gdf; Ok (<[l := gdf']> h)
  | None => Raise (LibraryError "no such object")
  end.

(** Lines 290-310 on the store: the address returned is the one given. *)
Definition _apply_repairs_and_ops_in_place (s : Settings) (l : nat) (h : Heap)
  : Heap * (nat * list string) :=
  let notes : list string := [] in
  let '(h, notes) :=
    match do_make_valid s, make_valid with
    | true, Some mv =>
        match set_geometry_at mv l h with
        | Ok h' => (h', notes ++ ["Applied make_valid."])
        | Raise e => (h, notes ++ ["make_valid failed: " +:+ str_exn e])
        end
    | _, _ => (h, notes)
    end in
  let '(h, notes) :=
    if use_buffer_fix s then
      match set_geometry_at (buffer 0) l h with
      | Ok h' => (h', notes ++ ["Applied buffer(0) fix."])
      | Raise e => (h, notes ++ ["buffer(0) failed: " +:+ str_exn e])
      end
    else (h, notes) in
  let '(h, notes) :=
    if do_simplify s && negb (Qle_bool (simplify_tol s) 0) then
      match set_geometry_at (simplify (simplify_tol s)) l h with
      | Ok h' =>
          (h', notes ++ ["Simplified (tol=" +:+ float_str (simplify_tol s) +:+ ")."])
      | Raise e => (h, notes ++ ["Simplify failed: " +:+ str_exn e])
      end
    else (h, notes) in
  (h, (l, notes)).

(** Lines 313-326 on the store: [to_crs] allocates the frame it
    returns. *)
Definition _reproject_in_place (l : nat) (epsg : string) (h : Heap)
  : Heap * (nat * option string) :=
  match py_int epsg with
  | None => (h, (l, Some "Invalid target EPSG; kept original CRS."))
  | Some tgt =>
      match h !! l with
      | None => (h, (l, Some "Reprojection failed: no such object"))
      | Some gdf =>
          match crs gdf with
          | None => (h, (l, Some "Source CRS unknown; cannot reproject."))
          | Some c =>
              if decide (to_epsg c = Some tgt) then (h, (l, None))
              else
                match to_crs gdf tgt with
                | Ok gdf' =>
                    let l' := fresh (dom h) in
                    (<[l' := gdf']> h,
                     (l', Some ("Reprojected to EPSG:" +:+ pretty tgt +:+ ".")))
                | Raise e => (h, (l, Some ("Reprojection failed: " +:+ str_exn e)))
                end
          end
      end
  end.

(** Lines 519 and 560-586 on the store: [gdf_last_single] is the address
    [l] of the loaded frame; the run gives the store afterwards and the
    widgets shown. *)
Definition convert_single_in_place (s : Settings) (l : nat) (uf_name : string)
    (h : Heap) : Heap * list Widget :=
  let '(h, (l2, notes)) := _apply_repairs_and_ops_in_place s l h in
  let '(h, (l2, reproj_note)) := _reproject_in_place l2 (target_epsg s) h in
  let notes :=
    match reproj_note with
    | Some n => if decide (n = EmptyString) then notes else notes ++ [n]
    | None => notes
    end in
  match h !! l2 with
  | Some gdf2 => (h, offer_download s gdf2 notes uf_name)
  | None => (h, [st_error "Conversion failed: no such object"])
  end.

End Store.

(** Two stores for the concrete runs: one frame each, at address 0. *)
Module DemoStore.

Definition open_ring : GeoDataFrame Demo.Geom Z :=
  {| columns := []; features := [ {| attrs := []; geom := Demo.Ring false |} ];
     crs := None |}.

Definition ring : gmap nat (GeoDataFrame Demo.Geom Z) := {[ 0 := open_ring ]}.

Definition point : gmap nat (GeoDataFrame Demo.Geom Z) := {[ 0 := Demo.one_feature "x" ]}.

Definition to_web_mercator : Settings :=
  {| target_epsg := "3857"; do_make_valid := true; use_buffer_fix := false;
     do_simplify := false; simplify_tol := 0; auto_rename_fields := true;
     out_fmt := "geojson" |}.

End DemoStore.

(** ** Vocabulary of the further properties *)

(** The first character of a string is one of [cs]. *)
Definition starts_with_one_of (cs : list ascii) (str : string) : Prop :=
  match str with
  | String c _ => c ∈ cs
  | EmptyString => False
  end.

Section ReportVocabulary.

Context {Geometry CRS : Type} {lib : External Geometry CRS}.

Local Abbreviation GDF := (GeoDataFrame Geometry CRS).

(** The line a report opens with once the file is loaded (line 472). *)
Definition loaded_line (gdf : GDF) : string :=
  "Loaded vector with " +:+ pretty (length (features gdf))
    +:+ " features. CRS=" +:+ crs_repr (crs gdf) +:+ ".".

(** The lines a reprojection note adds: none for no note. *)
Definition note_lines (note : option string) : list string :=
  match note with
  | Some n => if decide (n = EmptyString) then [] else [n]
  | None => []
  end.

(** The lines of the report of a job, read off the loop: the skip note
    for a tabular job; otherwise the load line, the conditioning notes,
    the reprojection note, and then the export notes with the line of the
    exported artifact, or the failure line of the stage that raised. *)
Definition report_lines_of (s : Settings) (uf : Upload) : list string :=
  if is_tabular uf then [skip_note]
  else
    match _read_vector_any (_save_upload_to uf).1 (_save_upload_to uf).2 with
    | Raise e => ["Read/Process failed: " +:+ str_exn e]
    | Ok gdf =>
        let conditioned := _apply_repairs_and_ops s gdf in
        let reprojected := _reproject conditioned.1 (target_epsg s) in
        [loaded_line gdf] ++ conditioned.2 ++ note_lines reprojected.2
        ++ match export_of s uf gdf with
           | Ok (_, out_name, msgs) => msgs ++ ["Exported: " +:+ out_name]
           | Raise e => ["Read/Process failed: " +:+ str_exn e]
           end
    end.

(** The artifact a job adds to the archive: the exported file when the
    pipeline goes through, nothing otherwise. *)
Definition job_artifact (s : Settings) (uf : Upload) : Listing :=
  if is_tabular uf then []
  else
    match _read_vector_any (_save_upload_to uf).1 (_save_upload_to uf).2 with
    | Raise _ => []
    | Ok gdf =>
        match export_of s uf gdf with
        | Ok (out_bytes, out_name, _) => [(out_name, out_bytes)]
        | Raise _ => []
        end
    end.

(** The notes the export of a job had recorded when it returned or
    raised. *)
Definition export_notes_of (s : Settings) (uf : Upload) (gdf : GDF) : list string :=
  let gdf1 := (_apply_repairs_and_ops s gdf).1 in
  let gdf2 := (_reproject gdf1 (target_epsg s)).1 in
  (_gdf_to_bytes s gdf2 (out_fmt s) (PyPath.stem (name uf))).1.

End ReportVocabulary.

(** * Properties *)

(** ** Strings *)

Module PyStrFacts.

Lemma length_app (a b : string) :
  String.length (a +:+ b) = String.length a + String.length b.
Proof. induction a as [|c a IH]; simpl; [reflexivity | now rewrite IH]. Qed.

Lemma length_take (n : nat) (s : string) :
  String.length (PyStr.take n s) = Nat.min n (String.length s).
Proof.
  revert s; induction n as [|n IH]; intros [|c s]; simpl; try reflexivity.
  now rewrite IH.
Qed.

Lemma take_exactly (n : nat) (s : string) :
  n <= String.length s -> String.length (PyStr.take n s) = n.
Proof. intros Hn. rewrite length_take. lia. Qed.

Lemma len_take_chars (n : nat) (s : string) :
  PyStr.len (PyStr.take_chars n s) = Nat.min n (PyStr.len s).
Proof.
  revert n; induction s as [|a s IH]; intros n; cbn [PyStr.take_chars PyStr.len].
  - now destruct n.
  - destruct (PyStr.is_continuation a) eqn:Ha.
    + cbn [PyStr.len]. rewrite Ha. apply IH.
    + destruct n as [|n]; [reflexivity|].
      cbn [PyStr.len]. rewrite Ha, IH. reflexivity.
Qed.

Lemma take_chars_exactly (n : nat) (s : string) :
  n <= PyStr.len s -> PyStr.len (PyStr.take_chars n s) = n.
Proof. intros Hn. rewrite len_take_chars. lia. Qed.

Lemma drop_app (a b : string) : PyStr.drop (String.length a) (a +:+ b) = b.
Proof. induction a as [|c a IH]; simpl; [now destruct b | exact IH]. Qed.

Lemma endswith_app (a suf : string) : PyStr.endswith suf (a +:+ suf) = true.
Proof.
  unfold PyStr.endswith. rewrite length_app.
  replace (String.length a + String.length suf - String.length suf)
    with (String.length a) by lia.
  rewrite drop_app, String.eqb_refl, andb_true_r.
  apply Nat.leb_le. lia.
Qed.

Lemma last_char_cons (c : ascii) (s : string) :
  s <> EmptyString -> PyStr.last_char (String c s) = PyStr.last_char s.
Proof. destruct s; [congruence | reflexivity]. Qed.

Lemma last_char_app (a b : string) :
  b <> EmptyString -> PyStr.last_char (a +:+ b) = PyStr.last_char b.
Proof.
  intros Hb. induction a as [|c a IH]; [reflexivity|].
  change (String c a +:+ b) with (String c (a +:+ b)).
  rewrite last_char_cons; [exact IH|].
  destruct a; [exact Hb | discriminate].
Qed.

Lemma last_char_drop (k : nat) (s : string) :
  k < String.length s -> PyStr.last_char (PyStr.drop k s) = PyStr.last_char s.
Proof.
  revert s; induction k as [|k IH]; intros [|c s] Hk; simpl in Hk; try lia.
  - reflexivity.
  - change (PyStr.drop (S k) (String c s)) with (PyStr.drop k s).
    rewrite IH by lia. symmetry. apply last_char_cons.
    destruct s; [simpl in Hk; lia | discriminate].
Qed.

Lemma endswith_last_char (suf s : string) :
  suf <> EmptyString -> PyStr.endswith suf s = true ->
  PyStr.last_char s = PyStr.last_char suf.
Proof.
  intros Hsuf H. unfold PyStr.endswith in H.
  apply andb_true_iff in H as [Hlen Heq].
  apply Nat.leb_le in Hlen. apply String.eqb_eq in Heq.
  rewrite <- Heq. symmetry. apply last_char_drop.
  destruct suf; [congruence | simpl in *; lia].
Qed.

(** A name with an extension that does not end in [t] is not the name
    of a report. *)
Lemma not_report_name (base ext : string) (c : ascii) :
  PyStr.last_char ext = Some c -> c <> "t"%char ->
  PyStr.endswith "_report.txt" (base +:+ ext) = false.
Proof.
  intros Hlast Hc. apply not_true_is_false. intros H.
  apply endswith_last_char in H; [|discriminate].
  rewrite last_char_app in H by (intros ->; discriminate).
  rewrite Hlast in H. simpl in H. congruence.
Qed.

End PyStrFacts.

(** ** Calls that may raise *)

Lemma traverse_length {A B} (f : A -> Exc B) (l : list A) (l' : list B) :
  traverse f l = Ok l' -> length l' = length l.
Proof.
  revert l'; induction l as [|x l IH]; intros l' H; simpl in H.
  - now inversion H.
  - destruct (f x) as [y|e]; simpl in H; [|discriminate].
    destruct (traverse f l) as [ys|e]; simpl in H; [|discriminate].
    inversion H; subst. simpl. f_equal. now apply IH.
Qed.

Lemma traverse_map {A B C} (f : A -> Exc B) (p : A -> C) (q : B -> C)
    (l : list A) (l' : list B) :
  (forall x y, f x = Ok y -> q y = p x) ->
  traverse f l = Ok l' -> q <$> l' = p <$> l.
Proof.
  intros Hf. revert l'; induction l as [|x l IH]; intros l' H; simpl in H.
  - now inversion H.
  - destruct (f x) as [y|e] eqn:Hx; simpl in H; [|discriminate].
    destruct (traverse f l) as [ys|e]; simpl in H; [|discriminate].
    inversion H; subst. simpl. f_equal; [now apply Hf | now apply IH].
Qed.

(** ** Geometry conditioning and reprojection *)

Section ConditioningFacts.

Context {Geometry CRS : Type} {lib : External Geometry CRS}.

Local Abbreviation GDF := (GeoDataFrame Geometry CRS).

Lemma same_frame_refl (g : GDF) : same_frame g g.
Proof. repeat split. Qed.

Lemma same_frame_trans (g1 g2 g3 : GDF) :
  same_frame g1 g2 -> same_frame g2 g3 -> same_frame g1 g3.
Proof.
  intros (Hc & Hl & Ha) (Hc' & Hl' & Ha'). repeat split; congruence.
Qed.

Lemma assign_geometry_frame (op : Geometry -> Exc Geometry) (g g' : GDF) :
  assign_geometry op g = Ok g' -> same_frame g g' /\ crs g' = crs g.
Proof.
  unfold assign_geometry. intros H.
  destruct (traverse _ (features g)) as [fs|e] eqn:Hfs; simpl in H; [|discriminate].
  inversion H; subst; clear H. unfold same_frame; simpl.
  repeat split.
  - eapply traverse_length, Hfs.
  - eapply traverse_map; [|exact Hfs].
    intros f f' Hf. cbn beta in Hf.
    destruct (op (geom f)); simpl in Hf; [|discriminate].
    now inversion Hf.
Qed.

Lemma make_valid_op_frame (g g' : GDF) :
  make_valid_op g = Ok g' -> same_frame g g' /\ crs g' = crs g.
Proof.
  unfold make_valid_op. destruct make_valid as [mv|].
  - apply assign_geometry_frame.
  - intros [= <-]. split; [apply same_frame_refl | reflexivity].
Qed.

Lemma to_crs_frame (g g' : GDF) (code : Z) :
  to_crs g code = Ok g' -> same_frame g g'.
Proof.
  unfold to_crs. intros H. destruct (crs g) as [src|]; [|discriminate].
  destruct (crs_from_epsg code) as [dst|e]; simpl in H; [|discriminate].
  destruct (traverse _ (features g)) as [fs|e] eqn:Hfs; simpl in H; [|discriminate].
  inversion H; subst; clear H. unfold same_frame; simpl.
  repeat split.
  - eapply traverse_length, Hfs.
  - eapply traverse_map; [|exact Hfs].
    intros f f' Hf. cbn beta in Hf.
    destruct (transform src dst (geom f)); simpl in Hf; [|discriminate].
    now inversion Hf.
Qed.

Lemma to_crs_target (g g' : GDF) (code : Z) :
  to_crs g code = Ok g' ->
  exists dst, crs_from_epsg code = Ok dst /\ crs g' = Some dst.
Proof.
  unfold to_crs. intros H. destruct (crs g) as [src|]; [|discriminate].
  destruct (crs_from_epsg code) as [dst|e]; simpl in H; [|discriminate].
  destruct (traverse _ (features g)) as [fs|e]; simpl in H; [|discriminate].
  inversion H; subst. now exists dst.
Qed.

(** A stage, switched on or off, keeps the frame and adds as many notes
    as it is worth. *)
Lemma stage_frame (enabled : bool) (op : GDF -> Exc GDF) (applied failed : string)
    (st st' : GDF * list string) :
  (forall g g', op g = Ok g' -> same_frame g g' /\ crs g' = crs g) ->
  stage enabled op applied failed st st' ->
  same_frame st.1 st'.1
  /\ crs st'.1 = crs st.1
  /\ length st'.2 = length st.2 + (if enabled then 1 else 0).
Proof.
  intros Hop. unfold stage. destruct enabled.
  - intros [g g' notes Hg | g e notes Hg]; simpl.
    + destruct (Hop _ _ Hg) as [Hf Hc]. rewrite length_app; simpl. auto.
    + rewrite length_app; simpl. split; [apply same_frame_refl | auto].
  - intros ->. split; [apply same_frame_refl | split; [reflexivity | lia]].
Qed.

(** The three [try] blocks of [_apply_repairs_and_ops], read as stages
    chained in the order of the source. *)
Lemma conditioning_stages (s : Settings) (gdf : GDF) :
  exists st1 st2 : GDF * list string,
    stage (make_valid_enabled s) make_valid_op
          "Applied make_valid." "make_valid failed: " (gdf, []) st1
    /\ stage (use_buffer_fix s) (assign_geometry (buffer 0))
             "Applied buffer(0) fix." "buffer(0) failed: " st1 st2
    /\ stage (simplify_enabled s) (assign_geometry (simplify (simplify_tol s)))
             ("Simplified (tol=" +:+ float_str (simplify_tol s) +:+ ").")
             "Simplify failed: " st2 (_apply_repairs_and_ops s gdf).
Proof.
  unfold _apply_repairs_and_ops, make_valid_enabled, make_valid_op, simplify_enabled.
  set (r1 := match do_make_valid s, make_valid with
             | true, Some mv => _
             | _, _ => _
             end).
  assert (H1 : stage (do_make_valid s && bool_decide (is_Some make_valid))
                 (fun g => match make_valid with
                           | Some mv => assign_geometry mv g
                           | None => Ok g
                           end)
                 "Applied make_valid." "make_valid failed: " (gdf, []) r1).
  { subst r1. unfold stage. destruct (do_make_valid s); simpl; [|reflexivity].
    destruct make_valid as [mv|]; simpl; [|reflexivity].
    destruct (assign_geometry mv gdf) as [g'|e] eqn:Hmv.
    - apply (stage_applied _ _ _ gdf g' []). exact Hmv.
    - apply (stage_failed _ _ _ gdf e []). exact Hmv. }
  destruct r1 as [g1 n1].
  set (r2 := if use_buffer_fix s then _ else _).
  assert (H2 : stage (use_buffer_fix s) (assign_geometry (buffer 0))
                 "Applied buffer(0) fix." "buffer(0) failed: " (g1, n1) r2).
  { subst r2. unfold stage. destruct (use_buffer_fix s); [|reflexivity].
    destruct (assign_geometry (buffer 0) g1) as [g'|e] eqn:Hb.
    - now apply stage_applied.
    - now apply stage_failed. }
  destruct r2 as [g2 n2].
  exists (g1, n1), (g2, n2). split; [exact H1 | split; [exact H2 |]].
  unfold stage.
  destruct (do_simplify s && negb (Qle_bool (simplify_tol s) 0)); [|reflexivity].
  destruct (assign_geometry (simplify (simplify_tol s)) g2) as [g'|e] eqn:Hs.
  - now apply stage_applied.
  - now apply stage_failed.
Qed.

Lemma conditioning_frame (s : Settings) (gdf : GDF) :
  same_frame gdf (_apply_repairs_and_ops s gdf).1
  /\ crs (_apply_repairs_and_ops s gdf).1 = crs gdf
  /\ length (_apply_repairs_and_ops s gdf).2 = enabled_stages s.
Proof.
  destruct (conditioning_stages s gdf) as (st1 & st2 & H1 & H2 & H3).
  apply stage_frame in H1; [|apply make_valid_op_frame].
  apply stage_frame in H2; [|apply assign_geometry_frame].
  apply stage_frame in H3; [|apply assign_geometry_frame].
  destruct H1 as (F1 & C1 & L1), H2 as (F2 & C2 & L2), H3 as (F3 & C3 & L3).
  simpl in *. split; [|split].
  - eapply same_frame_trans; [|exact F3]. eapply same_frame_trans; eassumption.
  - congruence.
  - unfold enabled_stages. lia.
Qed.


Lemma reproject_frame (gdf : GDF) (epsg : string) :
  same_frame gdf (_reproject gdf epsg).1.
Proof.
  unfold _reproject.
  destruct (py_int epsg) as [tgt|]; [|apply same_frame_refl].
  destruct (crs gdf) as [c|] eqn:Hc; [|apply same_frame_refl].
  destruct (decide (to_epsg c = Some tgt)); [apply same_frame_refl|].
  destruct (to_crs gdf tgt) as [g'|e] eqn:Ht; [|apply same_frame_refl].
  simpl. eapply to_crs_frame, Ht.
Qed.

End ConditioningFacts.

Section ConditioningClaims.

Context {Geometry CRS : Type} {lib : External Geometry CRS}.

Local Abbreviation GDF := (GeoDataFrame Geometry CRS).


(** C9.  Geometry conditioning and reprojection, alone or one after the
    other, never change the number of features, the attribute column
    names, or any attribute value: only the geometry column and the CRS
    of the frame may differ between input and output. *)
Theorem conditioning_reprojection_frame (s : Settings) (gdf : GDF) (epsg : string) :
  same_frame gdf (_apply_repairs_and_ops s gdf).1
  /\ same_frame gdf (_reproject gdf epsg).1
  /\ same_frame gdf (_reproject (_apply_repairs_and_ops s gdf).1 epsg).1.
Proof.
  split; [apply conditioning_frame|]. split; [apply reproject_frame|].
  eapply same_frame_trans; [apply conditioning_frame | apply reproject_frame].
Qed.

(** C2.  The reprojection step never raises (it always returns a frame
    and an optional note) and follows the decision table: a target that
    [int] cannot parse gives the frame unchanged with the invalid-target
    note; an unknown CRS gives the frame unchanged with the
    cannot-reproject note; a CRS whose EPSG code is the target gives the
    very same frame and no note; a transform that raises gives the frame
    unchanged with a failure note; otherwise the frame is the one
    transformed to the target CRS, with the success note. *)
Theorem reproject_decision_table (gdf : GDF) (epsg : string) :
  (py_int epsg = None ->
   _reproject gdf epsg = (gdf, Some "Invalid target EPSG; kept original CRS."))
  /\ (forall tgt, py_int epsg = Some tgt -> crs gdf = None ->
      _reproject gdf epsg = (gdf, Some "Source CRS unknown; cannot reproject."))
  /\ (forall tgt c, py_int epsg = Some tgt -> crs gdf = Some c ->
      to_epsg c = Some tgt ->
      _reproject gdf epsg = (gdf, None))
  /\ (forall tgt c e, py_int epsg = Some tgt -> crs gdf = Some c ->
      to_epsg c <> Some tgt -> to_crs gdf tgt = Raise e ->
      _reproject gdf epsg = (gdf, Some ("Reprojection failed: " +:+ str_exn e)))
  /\ (forall tgt c gdf', py_int epsg = Some tgt -> crs gdf = Some c ->
      to_epsg c <> Some tgt -> to_crs gdf tgt = Ok gdf' ->
      _reproject gdf epsg
      = (gdf', Some ("Reprojected to EPSG:" +:+ pretty tgt +:+ "."))
      /\ exists dst, crs_from_epsg tgt = Ok dst /\ crs gdf' = Some dst).
Proof.
  unfold _reproject. split; [|split; [|split; [|split]]].
  - intros ->. reflexivity.
  - intros tgt -> ->. reflexivity.
  - intros tgt c -> -> Hc. now rewrite decide_True.
  - intros tgt c e -> -> Hc ->. now rewrite decide_False.
  - intros tgt c gdf' -> -> Hc Ht. rewrite decide_False, Ht by assumption.
    split; [reflexivity | eapply to_crs_target, Ht].
Qed.

End ConditioningClaims.

(** ** Export *)

Section TruncationFacts.

Lemma truncate_fold (cols : list string) (m : gmap string string) (w : list string) :
  (foldl truncate_field (m, w) cols).2 = w ++ shp_warnings cols
  /\ forall c, (foldl truncate_field (m, w) cols).1 !! c
               = if bool_decide (c ∈ cols) && too_long c
                 then Some (PyStr.take_chars 10 c) else m !! c.
Proof.
  revert m w. induction cols as [|x cols IH]; intros m w.
  - split; [symmetry; apply app_nil_r | reflexivity].
  - cbn [foldl]. unfold truncate_field at 2 4.
    change (10 <? PyStr.len x) with (too_long x).
    unfold shp_warnings. rewrite filter_cons.
    destruct (decide (too_long x = true)) as [Hx|Hx].
    + rewrite Hx.
      destruct (IH (<[x := PyStr.take_chars 10 x]> m)
                  (w ++ [shp_warning x (PyStr.take_chars 10 x)])) as [Hw Hm].
      split.
      * rewrite Hw, <- app_assoc. reflexivity.
      * intros c. rewrite Hm.
        destruct (decide (c = x)) as [->|Hne].
        -- rewrite Hx, andb_true_r.
           rewrite (bool_decide_eq_true_2 (x ∈ x :: cols)) by apply list_elem_of_here.
           rewrite lookup_insert_eq.
           now destruct (bool_decide (x ∈ cols)).
        -- rewrite lookup_insert_ne by congruence.
           rewrite (bool_decide_ext (c ∈ x :: cols) (c ∈ cols)); [reflexivity|].
           rewrite elem_of_cons. tauto.
    + apply not_true_is_false in Hx. rewrite Hx.
      destruct (IH m w) as [Hw Hm].
      split; [exact Hw|].
      intros c. rewrite Hm.
      destruct (decide (c = x)) as [->|Hne].
      * rewrite Hx, !andb_false_r. reflexivity.
      * rewrite (bool_decide_ext (c ∈ x :: cols) (c ∈ cols)); [reflexivity|].
        rewrite elem_of_cons. tauto.
Qed.

Lemma truncate_warnings (cols : list string) :
  (_truncate_fields_for_shp cols).2 = shp_warnings cols.
Proof. apply (truncate_fold cols ∅ []). Qed.

Lemma truncate_mapping (cols : list string) (c : string) :
  (_truncate_fields_for_shp cols).1 !! c
  = if bool_decide (c ∈ cols) && too_long c then Some (PyStr.take_chars 10 c) else None.
Proof.
  destruct (truncate_fold cols ∅ []) as [_ Hm].
  unfold _truncate_fields_for_shp. rewrite Hm, lookup_empty. reflexivity.
Qed.

Lemma shp_name_length (c : string) :
  too_long c = true -> PyStr.len (shp_name c) = 10.
Proof.
  intros H. unfold shp_name. rewrite H. apply PyStrFacts.take_chars_exactly.
  unfold too_long in H. apply Nat.ltb_lt in H. lia.
Qed.

Lemma shp_name_short (c : string) : too_long c = false -> shp_name c = c.
Proof. intros H. unfold shp_name. now rewrite H. Qed.

Lemma shp_warnings_geometry (cols : list string) :
  shp_warnings (cols ++ ["geometry"]) = shp_warnings cols.
Proof.
  unfold shp_warnings. rewrite filter_app, fmap_app.
  rewrite (filter_cons _ "geometry"). simpl. apply app_nil_r.
Qed.

Lemma shp_warnings_length (cols : list string) :
  length (shp_warnings cols) = count too_long cols.
Proof. unfold shp_warnings, count. apply length_fmap. Qed.

End TruncationFacts.

Section ShapefileFacts.

Context {Geometry CRS : Type}.

Local Abbreviation GDF := (GeoDataFrame Geometry CRS).

Lemma none_too_long (cols : list string) :
  (forall c, c ∈ cols -> too_long c = false) ->
  shp_warnings cols = [] /\ shp_name <$> cols = cols.
Proof.
  induction cols as [|x cols IH]; intros H; [split; reflexivity|].
  destruct IH as [Hw Hn].
  { intros c Hc. apply H. now apply list_elem_of_further. }
  assert (Hx : too_long x = false) by apply H, list_elem_of_here.
  split.
  - unfold shp_warnings in *. rewrite filter_cons.
    rewrite decide_False by (rewrite Hx; discriminate). exact Hw.
  - rewrite fmap_cons, Hn, shp_name_short by exact Hx. reflexivity.
Qed.

Lemma rename_truncated (gdf : GDF) :
  columns (rename (_truncate_fields_for_shp (all_columns gdf)).1 gdf)
  = shp_name <$> columns gdf.
Proof.
  unfold rename; simpl. apply Forall_fmap_ext, Forall_forall.
  intros c Hc. rewrite truncate_mapping.
  rewrite bool_decide_eq_true_2
    by (unfold all_columns; apply elem_of_app; now left).
  unfold shp_name. simpl. now destruct (too_long c).
Qed.

(** With the rename option on, the frame handed to the Shapefile driver
    has every column under its Shapefile name, and the notes grow by one
    warning per column that was too long. *)
Lemma shp_rename_on (s : Settings) (gdf : GDF) (msgs : list string) :
  auto_rename_fields s = true ->
  columns (shp_rename s gdf msgs).1 = shp_name <$> columns gdf
  /\ features (shp_rename s gdf msgs).1 = features gdf
  /\ crs (shp_rename s gdf msgs).1 = crs gdf
  /\ (shp_rename s gdf msgs).2 = msgs ++ shp_warnings (columns gdf).
Proof.
  intros Hauto. unfold shp_rename.
  pose proof (truncate_warnings (all_columns gdf)) as Hw.
  pose proof (truncate_mapping (all_columns gdf)) as Hm.
  pose proof (rename_truncated gdf) as Hr.
  destruct (_truncate_fields_for_shp (all_columns gdf)) as [mapping warns].
  simpl in Hw, Hm, Hr. rewrite Hauto. simpl.
  unfold all_columns in Hw. rewrite shp_warnings_geometry in Hw.
  destruct (decide (mapping = ∅)) as [He|Hne].
  - rewrite bool_decide_eq_false_2 by tauto. simpl.
    destruct (none_too_long (columns gdf)) as [Hnil Hsame].
    { intros c Hc. specialize (Hm c). rewrite He, lookup_empty in Hm.
      rewrite bool_decide_eq_true_2 in Hm
        by (unfold all_columns; apply elem_of_app; now left).
      simpl in Hm. destruct (too_long c); [discriminate | reflexivity]. }
    rewrite Hnil, Hsame, app_nil_r. auto.
  - rewrite bool_decide_eq_true_2 by exact Hne. simpl.
    rewrite Hr, Hw. auto.
Qed.

End ShapefileFacts.

Section ExportFacts.

Context {Geometry CRS : Type} {lib : External Geometry CRS}.

Local Abbreviation GDF := (GeoDataFrame Geometry CRS).

Lemma export_shapefile (s : Settings) (gdf : GDF) (fmt base : string) :
  PyStr.lower fmt = "shapefile" ->
  _gdf_to_bytes s gdf fmt base
  = ((shp_rename s gdf []).2,
     shp_folder ← to_file (shp_rename s gdf []).1 (base +:+ ".shp") "ESRI Shapefile";
     Ok (zip_deflated shp_folder, base +:+ ".zip", (shp_rename s gdf []).2)).
Proof.
  intros Hfmt. unfold _gdf_to_bytes. rewrite Hfmt.
  destruct (shp_rename s gdf []) as [gdf' msgs]. reflexivity.
Qed.

Lemma export_kml (s : Settings) (gdf : GDF) (fmt base : string) :
  PyStr.lower fmt = "kml" ->
  _gdf_to_bytes s gdf fmt base = driver_write (kml_relabel gdf) base ".kml" "KML".
Proof.
  intros Hfmt. unfold _gdf_to_bytes, driver_write. rewrite Hfmt.
  cbn [String.eqb Ascii.eqb Bool.eqb].
  destruct (to_file (kml_relabel gdf) (base +:+ ".kml") "KML"); reflexivity.
Qed.

Lemma export_gpx (s : Settings) (gdf : GDF) (fmt base : string) :
  PyStr.lower fmt = "gpx" ->
  _gdf_to_bytes s gdf fmt base = driver_write gdf base ".gpx" "GPX".
Proof.
  intros Hfmt. unfold _gdf_to_bytes, driver_write. rewrite Hfmt.
  cbn [String.eqb Ascii.eqb Bool.eqb].
  destruct (to_file gdf (base +:+ ".gpx") "GPX"); reflexivity.
Qed.


Lemma kml_relabel_features (gdf : GDF) :
  features (kml_relabel gdf) = features gdf
  /\ columns (kml_relabel gdf) = columns gdf.
Proof.
  unfold kml_relabel, set_crs.
  destruct (match crs gdf with None => true | Some c => _ end); [|auto].
  destruct (crs_from_epsg 4326); simpl; auto.
Qed.

Lemma kml_relabel_wgs84 (gdf : GDF) (c : CRS) :
  crs gdf = Some c -> to_epsg c = Some 4326%Z -> kml_relabel gdf = gdf.
Proof.
  intros Hc He. unfold kml_relabel. rewrite Hc.
  rewrite bool_decide_eq_false_2; [reflexivity | tauto].
Qed.

End ExportFacts.

Section ExportClaims.

Context {Geometry CRS : Type} {lib : External Geometry CRS}.

Local Abbreviation GDF := (GeoDataFrame Geometry CRS).

(** C4.  Shapefile export with the auto-rename option on: in the frame
    written by the driver every attribute column longer than 10
    characters is named by exactly its first 10 characters, every column
    of 10 characters or fewer keeps its name, and the notes are exactly
    one warning per column that was too long (none for the others);
    features and CRS are as in the input.  Characters are counted as
    [len(c)] and [c[:10]] count them ([PyStr.len], [PyStr.take_chars]). *)
Theorem shapefile_auto_rename (s : Settings) (gdf : GDF) (base : string) :
  auto_rename_fields s = true ->
  exists gdf' : GDF,
    _gdf_to_bytes s gdf "shapefile" base
    = (shp_warnings (columns gdf),
       shp_folder ← to_file gdf' (base +:+ ".shp") "ESRI Shapefile";
       Ok (zip_deflated shp_folder, base +:+ ".zip", shp_warnings (columns gdf)))
    /\ columns gdf' = shp_name <$> columns gdf
    /\ features gdf' = features gdf
    /\ crs gdf' = crs gdf
    /\ length (shp_warnings (columns gdf)) = count too_long (columns gdf)
    /\ (forall c, 10 < PyStr.len c ->
          shp_name c = PyStr.take_chars 10 c /\ PyStr.len (shp_name c) = 10)
    /\ (forall c, PyStr.len c <= 10 ->
          shp_name c = c /\ shp_warnings [c] = []).
Proof.
  intros Hauto.
  destruct (shp_rename_on s gdf [] Hauto) as (Hc & Hf & Hr & Hm).
  exists (shp_rename s gdf []).1.
  rewrite export_shapefile by reflexivity. rewrite Hm. simpl.
  split; [reflexivity|]. do 3 (split; [assumption|]).
  split; [apply shp_warnings_length|].
  split; intros c Hlen.
  - assert (Hlong : too_long c = true) by now apply Nat.ltb_lt.
    split; [unfold shp_name; now rewrite Hlong | now apply shp_name_length].
  - assert (Hshort : too_long c = false) by now apply Nat.ltb_ge.
    split; [now apply shp_name_short|].
    apply (none_too_long [c]). intros c' Hc'.
    apply list_elem_of_singleton in Hc'. now subst.
Qed.

(** C5.  KML export of a frame whose CRS is missing or whose EPSG code is
    not 4326 (EPSG:4326 being known to the library): the frame written by
    the KML driver carries the CRS EPSG:4326 and the very same features,
    so the coordinates are relabelled, not transformed.  GPX export
    writes the frame as it was given, without relabel. *)
Theorem kml_relabel_label_only (s : Settings) (gdf : GDF) (base : string)
    (wgs84 : CRS) :
  crs_from_epsg 4326 = Ok wgs84 ->
  (crs gdf = None \/ exists c, crs gdf = Some c /\ to_epsg c <> Some 4326%Z) ->
  let relabelled : GDF :=
    {| columns := columns gdf; features := features gdf; crs := Some wgs84 |} in
  kml_relabel gdf = relabelled
  /\ _gdf_to_bytes s gdf "kml" base = driver_write relabelled base ".kml" "KML"
  /\ _gdf_to_bytes s gdf "gpx" base = driver_write gdf base ".gpx" "GPX".
Proof.
  intros Hwgs Hcrs relabelled.
  assert (Hrel : kml_relabel gdf = relabelled).
  { unfold kml_relabel, set_crs. rewrite Hwgs.
    destruct Hcrs as [-> | (c & -> & Hc)]; [reflexivity|].
    now rewrite bool_decide_eq_true_2. }
  split; [exact Hrel|].
  split.
  - rewrite export_kml by reflexivity. now rewrite Hrel.
  - now apply export_gpx.
Qed.


End ExportClaims.

(** ** Ingestion *)

Section IngestionFacts.

Context {Geometry CRS : Type} {lib : External Geometry CRS}.

Local Abbreviation GDF := (GeoDataFrame Geometry CRS).

Lemma to_numeric_idem (c : Cell) :
  to_numeric_cell (to_numeric_cell c) = to_numeric_cell c.
Proof.
  destruct c as [x|str|]; simpl; try reflexivity.
  now destruct (to_numeric_str str).
Qed.

Lemma cell_at_in_range (i : nat) (r : list Cell) :
  isna (cell_at i r) = false -> i < length r.
Proof.
  unfold cell_at. destruct (r !! i) eqn:Hi; simpl; [|discriminate].
  intros _. eapply lookup_lt_Some, Hi.
Qed.

Lemma cell_at_insert_eq (i : nat) (v : Cell) (r : list Cell) :
  i < length r -> cell_at i (<[i := v]> r) = v.
Proof. intros Hi. unfold cell_at. now rewrite list_lookup_insert_eq. Qed.

Lemma cell_at_insert_ne (i j : nat) (v : Cell) (r : list Cell) :
  i <> j -> cell_at j (<[i := v]> r) = cell_at j r.
Proof. intros Hij. unfold cell_at. now rewrite list_lookup_insert_ne. Qed.

Lemma coerced_cells (ilat ilon : nat) (r : list Cell) :
  isna (cell_at ilat r) = false -> isna (cell_at ilon r) = false ->
  cell_at ilat (coerced ilat ilon r) = to_numeric_cell (cell_at ilat r)
  /\ cell_at ilon (coerced ilat ilon r) = to_numeric_cell (cell_at ilon r)
  /\ coerced ilat ilon r
     = <[ilon := to_numeric_cell (cell_at ilon r)]>
         (<[ilat := to_numeric_cell (cell_at ilat r)]> r).
Proof.
  intros Hlat Hlon.
  apply cell_at_in_range in Hlat, Hlon. unfold coerced.
  destruct (decide (ilat = ilon)) as [<-|Hne].
  - rewrite !cell_at_insert_eq by (rewrite ?length_insert; lia).
    rewrite to_numeric_idem. auto.
  - rewrite (cell_at_insert_ne ilat ilon) by exact Hne.
    rewrite cell_at_insert_eq by (rewrite length_insert; lia).
    rewrite (cell_at_insert_ne ilon ilat) by congruence.
    rewrite cell_at_insert_eq by lia. auto.
Qed.

Lemma coerce_columns (ilat ilon : nat) (rows : list (list Cell)) :
  coerce_column ilon (coerce_column ilat rows) = coerced ilat ilon <$> rows.
Proof.
  unfold coerce_column. rewrite <- list_fmap_compose. reflexivity.
Qed.

Lemma isna_to_numeric (c : Cell) :
  isna c = true -> to_numeric_cell c = CNaN.
Proof. destruct c; simpl; [discriminate.. | reflexivity]. Qed.

(** The two passes of [dropna] around the coercions keep exactly the
    rows that stand for a point, and the points are built from them. *)
Lemma rows_to_points (ilat ilon : nat) (rows : list (list Cell)) :
  traverse
    (fun r =>
       x ← cell_number (cell_at ilon r);
       y ← cell_number (cell_at ilat r);
       Ok {| attrs := r; geom := Point x y |})
    (dropna ilat ilon (coerced ilat ilon <$> dropna ilat ilon rows))
  = Ok (omap (point_of_row ilat ilon) rows).
Proof.
  induction rows as [|r rows IH]; [reflexivity|].
  unfold dropna at 2. rewrite filter_cons. fold (dropna ilat ilon rows).
  cbn [omap list_omap]. cbn beta. unfold point_of_row at 1.
  destruct (isna (cell_at ilat r)) eqn:Hlat.
  { rewrite decide_False by (simpl; tauto).
    rewrite (isna_to_numeric _ Hlat). exact IH. }
  destruct (isna (cell_at ilon r)) eqn:Hlon.
  { rewrite decide_False by (simpl; tauto).
    rewrite (isna_to_numeric _ Hlon).
    destruct (to_numeric_cell (cell_at ilat r)); exact IH. }
  rewrite decide_True by (simpl; tauto).
  rewrite fmap_cons. unfold dropna at 1. rewrite filter_cons.
  fold (dropna ilat ilon (coerced ilat ilon <$> dropna ilat ilon rows)).
  cbn beta.
  destruct (coerced_cells ilat ilon r Hlat Hlon) as (Clat & Clon & Cr).
  rewrite Clat, Clon.
  destruct (to_numeric_cell (cell_at ilat r)) as [y|sy|] eqn:Ty.
  - destruct (to_numeric_cell (cell_at ilon r)) as [x|sx|] eqn:Tx.
    + rewrite decide_True by (simpl; tauto).
      cbn [traverse]. rewrite Clat, Clon, IH, Cr. reflexivity.
    + destruct (cell_at ilon r) as [?|str|]; simpl in Tx; try discriminate.
      destruct (to_numeric_str str); discriminate.
    + rewrite decide_False by (simpl; tauto). exact IH.
  - destruct (cell_at ilat r) as [?|str|]; simpl in Ty; try discriminate.
    destruct (to_numeric_str str); discriminate.
  - rewrite decide_False by (simpl; tauto). exact IH.
Qed.

End IngestionFacts.

Section IngestionClaims.

Context {Geometry CRS : Type} {lib : External Geometry CRS}.

Local Abbreviation GDF := (GeoDataFrame Geometry CRS).

(** C7.  Tabular-to-points ingestion of a readable table that has the
    chosen latitude and longitude columns, with a source EPSG the library
    knows: the call returns (no error); every row whose latitude or
    longitude is missing or not numeric after coercion is dropped, in
    silence, before the points are built; every other row gives one
    feature, in row order, whose geometry is the point [(lon, lat)]; and
    the CRS of the frame is the one of the supplied EPSG. *)
Theorem csv_points_drop_bad_rows (dir : Listing)
    (path lat_col lon_col src_epsg content : string) (df : DataFrame)
    (ilat ilon : nat) (c : CRS) :
  file_bytes dir path = Ok content ->
  (PyStr.lower (PyPath.suffix path) = ".csv" /\ read_csv content = Ok df
   \/ PyStr.lower (PyPath.suffix path) <> ".csv" /\ read_excel content = Ok df) ->
  col_index lat_col (df_columns df) = Some ilat ->
  col_index lon_col (df_columns df) = Some ilon ->
  crs_from_string ("EPSG:" +:+ src_epsg) = Ok c ->
  _read_csv_points dir path lat_col lon_col src_epsg
  = Ok {| columns := df_columns df;
          features := omap (point_of_row ilat ilon) (df_rows df);
          crs := Some c |}.
Proof.
  intros Hfile Hread Hlat Hlon Hcrs. unfold _read_csv_points.
  assert (Hdf : (if String.eqb (PyStr.lower (PyPath.suffix path)) ".csv"
                 then content ← file_bytes dir path; read_csv content
                 else
                   content ← file_bytes dir path;
                   match read_excel content with
                   | Raise (ImportError _) =>
                       Raise (RuntimeError
                                "Reading .xlsx needs 'openpyxl'. Install it or export CSV.")
                   | r => r
                   end) = Ok df).
  { rewrite Hfile. simpl.
    destruct Hread as [[Hext Hcsv] | [Hext Hxl]].
    - now rewrite Hext.
    - rewrite (proj2 (String.eqb_neq _ _) Hext). now rewrite Hxl. }
  rewrite Hdf. simpl. rewrite Hlat, Hlon.
  rewrite coerce_columns, rows_to_points. simpl. now rewrite Hcrs.
Qed.

(** C8.  Ingesting a [.zip] input whose archive can be extracted: the
    archive is unpacked into the scratch directory and the files named
    [*.shp] are searched for recursively; when there is none, ingestion
    fails with the missing-payload error ([ValueError] "No .shp found
    inside the uploaded .zip") instead of returning a frame; otherwise
    the first one found is the file that is loaded. *)
Theorem zip_ingestion_first_shp (dir : Listing) (path content : string)
    (work : Listing) :
  PyStr.lower (PyPath.suffix path) = ".zip" ->
  file_bytes dir path = Ok content ->
  extractall content = Ok work ->
  (filter (fun p => PyPath.matches_shp p = true) work.*1 = [] ->
   _read_vector_any dir path
   = Raise (ValueError "No .shp found inside the uploaded .zip"))
  /\ (forall shp rest,
        filter (fun p => PyPath.matches_shp p = true) work.*1 = shp :: rest ->
        _read_vector_any dir path = read_file work shp).
Proof.
  intros Hext Hfile Hzip.
  unfold _read_vector_any, _unzip_if_shapefile.
  rewrite Hext, Hfile. simpl. rewrite Hzip. simpl.
  split.
  - now intros ->.
  - now intros shp rest ->.
Qed.

End IngestionClaims.

(** ** The batch loop *)

Section BatchFacts.

Context {Geometry CRS : Type} {lib : External Geometry CRS}.

Local Abbreviation GDF := (GeoDataFrame Geometry CRS).

Lemma report_name_is_report (name_stem text : string) :
  is_report (report_name name_stem, text) = true.
Proof. apply PyStrFacts.endswith_app. Qed.

(** The name of an exported artifact is never the name of a report. *)
Lemma output_name_not_report (s : Settings) (gdf : GDF) (fmt base : string)
    (out_bytes out_name : string) (msgs : list string) :
  (_gdf_to_bytes s gdf fmt base).2 = Ok (out_bytes, out_name, msgs) ->
  is_report (out_name, out_bytes) = false.
Proof.
  unfold _gdf_to_bytes, is_report. cbn [fst].
  destruct (String.eqb (PyStr.lower fmt) "geojson").
  { cbn [snd]. destruct (to_json gdf); simpl; intros [= <- <- <-].
    now apply (PyStrFacts.not_report_name base ".geojson" "n"). }
  destruct (String.eqb (PyStr.lower fmt) "gpkg").
  { cbn [snd]. destruct (to_file gdf _ _) as [d|]; simpl; [|discriminate].
    destruct (file_bytes d _); simpl; intros [= <- <- <-].
    now apply (PyStrFacts.not_report_name base ".gpkg" "g"). }
  destruct (String.eqb (PyStr.lower fmt) "kml").
  { destruct (to_file (kml_relabel gdf) _ _) as [d|]; cbn [snd]; [|discriminate].
    destruct (file_bytes d _); simpl; intros [= <- <- <-].
    now apply (PyStrFacts.not_report_name base ".kml" "l"). }
  destruct (String.eqb (PyStr.lower fmt) "gpx").
  { destruct (to_file gdf _ _) as [d|]; cbn [snd]; [|discriminate].
    destruct (file_bytes d _); simpl; intros [= <- <- <-].
    now apply (PyStrFacts.not_report_name base ".gpx" "x"). }
  destruct (String.eqb (PyStr.lower fmt) "shapefile").
  { destruct (shp_rename s gdf []) as [g' m']. cbn [snd].
    destruct (to_file g' _ _); simpl; intros [= <- <- <-].
    now apply (PyStrFacts.not_report_name base ".zip" "p"). }
  discriminate.
Qed.

(** What the [try] block leaves behind, by outcome of the job. *)
Lemma convert_job_cases (s : Settings) (z : Listing) (lines : list string)
    (uf : Upload) :
  let r := convert_job s z lines (_save_upload_to uf).1 (_save_upload_to uf).2
                       (PyPath.stem (name uf)) in
  match _read_vector_any (_save_upload_to uf).1 (_save_upload_to uf).2 with
  | Raise e => r = (z, lines ++ ["Read/Process failed: " +:+ str_exn e])
  | Ok gdf =>
      match export_of s uf gdf with
      | Raise e =>
          exists lines', r = (z, lines' ++ ["Read/Process failed: " +:+ str_exn e])
      | Ok (out_bytes, out_name, msgs) =>
          is_report (out_name, out_bytes) = false
          /\ exists lines',
              r = (z ++ [(out_name, out_bytes)], lines' ++ ["Exported: " +:+ out_name])
      end
  end.
Proof.
  unfold convert_job, export_of. cbn zeta.
  destruct (_read_vector_any _ _) as [gdf|e]; [|reflexivity].
  destruct (_apply_repairs_and_ops s gdf) as [g1 n1]. cbn [fst].
  destruct (_reproject g1 (target_epsg s)) as [g2 n2]. cbn [fst].
  destruct (_gdf_to_bytes s g2 (out_fmt s) (PyPath.stem (name uf))).2
    as [[[b n] m]|e] eqn:Hexp.
  - split; [eapply output_name_not_report, Hexp | eauto].
  - eauto.
Qed.

Lemma convert_job_archive (s : Settings) (z : Listing) (lines : list string)
    (dir : Listing) (path name_stem : string) :
  convert_job s z lines dir path name_stem
  = (z ++ (convert_job s [] lines dir path name_stem).1,
     (convert_job s [] lines dir path name_stem).2).
Proof.
  unfold convert_job.
  destruct (_read_vector_any dir path) as [gdf|e]; [|now rewrite app_nil_r].
  destruct (_apply_repairs_and_ops s gdf) as [g1 n1].
  destruct (_reproject g1 (target_epsg s)) as [g2 n2].
  destruct (_gdf_to_bytes s g2 (out_fmt s) name_stem).2 as [[[b n] m]|e];
    [reflexivity | now rewrite app_nil_r].
Qed.

(** One iteration extends the archive and [reports] by what the job
    alone determines. *)
Lemma batch_iteration_appends (s : Settings) (z : Listing)
    (reports : list (string * string)) (uf : Upload) :
  batch_iteration s (z, reports) uf
  = (z ++ job_entries s uf, reports ++ job_report s uf).
Proof.
  unfold job_entries, job_report, batch_iteration, _save_upload_to.
  cbn beta iota zeta.
  destruct (dict_mem _ TAB_INPUTS); [reflexivity|].
  rewrite (convert_job_archive s z).
  destruct (convert_job s [] [] _ _ _) as [z0 l0].
  cbn [fst snd app]. now rewrite <- app_assoc.
Qed.

Lemma do_batch_from (s : Settings) (ufs : list Upload) (z : Listing)
    (reports : list (string * string)) :
  foldl (batch_iteration s) (z, reports) ufs
  = (z ++ concat (job_entries s <$> ufs), reports ++ concat (job_report s <$> ufs)).
Proof.
  revert z reports. induction ufs as [|uf ufs IH]; intros z reports.
  - simpl. now rewrite !app_nil_r.
  - cbn [foldl]. rewrite batch_iteration_appends, IH.
    rewrite fmap_cons. cbn [concat]. now rewrite <- !app_assoc.
Qed.

(** The jobs are independent: the batch is the concatenation of what
    each job gives on its own. *)
Lemma do_batch_concat (s : Settings) (ufs : list Upload) :
  do_batch s ufs
  = (concat (job_entries s <$> ufs), concat (job_report s <$> ufs)).
Proof. unfold do_batch. now rewrite do_batch_from. Qed.

Lemma job_tabular (s : Settings) (uf : Upload) :
  is_tabular uf = true ->
  job_entries s uf = [(report_name (PyPath.stem (name uf)), skip_note)]
  /\ job_report s uf = [(report_name (PyPath.stem (name uf)), skip_note)].
Proof.
  unfold is_tabular, job_entries, job_report, batch_iteration, _save_upload_to.
  cbn beta iota zeta. intros ->. split; reflexivity.
Qed.

(** What a job adds: its report, after its artifact when it succeeds. *)
Lemma job_shape (s : Settings) (uf : Upload) :
  exists text,
    job_report s uf = [(report_name (PyPath.stem (name uf)), text)]
    /\ (job_succeeds s uf = true
        /\ (exists out_name out_bytes,
               is_report (out_name, out_bytes) = false
               /\ job_entries s uf
                  = [(out_name, out_bytes);
                     (report_name (PyPath.stem (name uf)), text)])
        \/ job_succeeds s uf = false
           /\ job_entries s uf = [(report_name (PyPath.stem (name uf)), text)]).
Proof.
  destruct (is_tabular uf) eqn:Htab.
  { destruct (job_tabular s uf Htab) as [He Hr]. exists skip_note.
    split; [exact Hr|]. right. split; [|exact He].
    unfold job_succeeds. now rewrite Htab. }
  pose proof (convert_job_cases s [] [] uf) as Hc.
  unfold job_succeeds, job_entries, job_report, batch_iteration.
  unfold is_tabular, _save_upload_to in *.
  cbn beta iota zeta in *. cbn [fst snd] in *.
  rewrite Htab. cbn [negb andb is_ok].
  destruct (convert_job s [] [] _ _ _) as [z0 l0].
  eexists. split; [reflexivity|].
  destruct (_read_vector_any _ _) as [gdf|e].
  - destruct (export_of s uf gdf) as [[[b n] m]|e].
    + destruct Hc as (Hn & l' & [= -> ->]). left. split; [reflexivity|].
      exists n, b. split; [exact Hn | reflexivity].
    + destruct Hc as (l' & [= -> ->]). right. split; reflexivity.
  - injection Hc as -> ->. right. split; reflexivity.
Qed.

End BatchFacts.

Section CountingFacts.

Context {A : Type}.

Lemma count_cons (p : A -> bool) (x : A) (l : list A) :
  count p (x :: l) = (if p x then 1 else 0) + count p l.
Proof.
  unfold count. rewrite filter_cons.
  destruct (p x) eqn:Hx.
  - now rewrite decide_True.
  - now rewrite decide_False by discriminate.
Qed.

Lemma count_app (p : A -> bool) (l1 l2 : list A) :
  count p (l1 ++ l2) = count p l1 + count p l2.
Proof. unfold count. now rewrite filter_app, length_app. Qed.

Lemma count_le_length (p : A -> bool) (l : list A) : count p l <= length l.
Proof.
  induction l as [|x l IH]; [reflexivity|].
  rewrite count_cons. simpl. destruct (p x); lia.
Qed.

End CountingFacts.

Section BatchCounting.

Context {Geometry CRS : Type} {lib : External Geometry CRS}.

Lemma job_counts (s : Settings) (uf : Upload) :
  (filter (fun e => is_report e = true) (job_entries s uf)).*1 = [report_of uf]
  /\ count is_output (job_entries s uf) = (if job_succeeds s uf then 1 else 0).
Proof.
  destruct (job_shape s uf) as (text & _ & Hshape).
  pose proof (report_name_is_report (PyPath.stem (name uf)) text) as Hrep.
  destruct Hshape as [(-> & n & b & Hn & ->) | (-> & ->)].
  - rewrite !count_cons, !filter_cons. unfold is_output.
    rewrite Hn, Hrep. rewrite decide_False by discriminate.
    rewrite decide_True by reflexivity. split; reflexivity.
  - rewrite !count_cons, !filter_cons. unfold is_output.
    rewrite Hrep. rewrite decide_True by reflexivity. split; reflexivity.
Qed.

Lemma batch_counts (s : Settings) (ufs : list Upload) :
  (filter (fun e => is_report e = true) (concat (job_entries s <$> ufs))).*1
  = report_of <$> ufs
  /\ count is_output (concat (job_entries s <$> ufs)) = count (job_succeeds s) ufs.
Proof.
  induction ufs as [|uf ufs [IHr IHo]]; [split; reflexivity|].
  destruct (job_counts s uf) as [Hr Ho].
  rewrite fmap_cons. cbn [concat].
  rewrite filter_app, fmap_app, count_app, Hr, Ho, IHr, IHo, count_cons.
  split; reflexivity.
Qed.

(** Every job is of exactly one kind. *)
Lemma job_partition (s : Settings) (ufs : list Upload) :
  count (job_succeeds s) ufs + count is_tabular ufs
  + count fails_at_ingestion ufs + count (fails_at_export s) ufs
  = length ufs.
Proof.
  induction ufs as [|uf ufs IH]; [reflexivity|].
  rewrite !count_cons. cbn [length].
  unfold job_succeeds at 1, fails_at_ingestion at 1, fails_at_export at 1.
  destruct (is_tabular uf); cbn [negb andb]; [lia|].
  destruct (_read_vector_any _ _) as [gdf|e]; cbn [is_ok negb]; [|lia].
  destruct (export_of s uf gdf); cbn [is_ok negb]; lia.
Qed.

Lemma only_ingestion_failures (s : Settings) (ufs : list Upload) :
  Forall (fun uf => fails_at_ingestion uf = true \/ job_succeeds s uf = true) ufs ->
  count is_tabular ufs = 0 /\ count (fails_at_export s) ufs = 0.
Proof.
  induction 1 as [|uf ufs Huf _ [IHt IHe]]; [split; reflexivity|].
  rewrite !count_cons, IHt, IHe.
  unfold fails_at_ingestion, job_succeeds, fails_at_export in *.
  destruct (is_tabular uf); cbn [negb andb] in *; [destruct Huf; discriminate|].
  destruct (_read_vector_any _ _) as [gdf|e]; cbn [is_ok negb] in *;
    [|split; reflexivity].
  destruct (export_of s uf gdf); cbn [is_ok negb] in *; [split; reflexivity|].
  destruct Huf; discriminate.
Qed.

Lemma str_or_nonempty (c : ascii) (x d : string) :
  str_or (String c x) d = String c x.
Proof. unfold str_or. now rewrite decide_False. Qed.

Lemma job_ingestion_failure (s : Settings) (uf : Upload) (e : exn) :
  is_tabular uf = false ->
  _read_vector_any (_save_upload_to uf).1 (_save_upload_to uf).2 = Raise e ->
  job_entries s uf = [(report_of uf, "Read/Process failed: " +:+ str_exn e)].
Proof.
  intros Htab Hread.
  unfold job_entries, batch_iteration, is_tabular, _save_upload_to in *.
  cbn beta iota zeta in *. cbn [fst snd] in *.
  rewrite Htab. unfold convert_job. rewrite Hread. cbn [app PyStr.join_lines fst].
  reflexivity.
Qed.

End BatchCounting.

Section BatchClaims.

Context {Geometry CRS : Type} {lib : External Geometry CRS}.

(** C1.  A batch run over a list of uploaded jobs.  The jobs are
    processed independently: the archive is the concatenation of what
    each job adds on its own, so no outcome of one job stops the next.
    Exactly one report named [<stem>_report.txt] is written per job,
    whatever its outcome, in job order; an output artifact is written
    exactly for the jobs whose load/condition/reproject/export pipeline
    goes through; hence a batch of N jobs of which K fail at ingestion,
    the others going through, holds N reports and exactly N - K
    artifacts.  A tabular job gets the fixed skip note as its report and
    no artifact; an exception of the loader is caught and becomes the
    failure line of the report of that job. *)
Theorem batch_reports_and_artifacts (s : Settings) (ufs : list Upload) :
  do_batch s ufs = (concat (job_entries s <$> ufs), concat (job_report s <$> ufs))
  /\ (filter (fun e => is_report e = true) (do_batch s ufs).1).*1 = report_of <$> ufs
  /\ count is_report (do_batch s ufs).1 = length ufs
  /\ count is_output (do_batch s ufs).1 = count (job_succeeds s) ufs
  /\ count (job_succeeds s) ufs + count is_tabular ufs
     + count fails_at_ingestion ufs + count (fails_at_export s) ufs = length ufs
  /\ (Forall (fun uf => fails_at_ingestion uf = true \/ job_succeeds s uf = true) ufs ->
      count is_output (do_batch s ufs).1
      = length ufs - count fails_at_ingestion ufs)
  /\ (forall uf, is_tabular uf = true ->
      job_entries s uf = [(report_of uf, skip_note)])
  /\ (forall uf e, is_tabular uf = false ->
      _read_vector_any (_save_upload_to uf).1 (_save_upload_to uf).2 = Raise e ->
      job_entries s uf = [(report_of uf, "Read/Process failed: " +:+ str_exn e)]).
Proof.
  rewrite do_batch_concat. cbn [fst].
  destruct (batch_counts s ufs) as [Hr Ho].
  pose proof (job_partition s ufs) as Hp.
  split; [reflexivity|]. split; [exact Hr|].
  split.
  { unfold count. rewrite <- (length_fmap fst), Hr. apply length_fmap. }
  split; [exact Ho|]. split; [exact Hp|].
  split.
  { intros Hall. destruct (only_ingestion_failures s ufs Hall) as [Ht He].
    rewrite Ho. lia. }
  split.
  - intros uf Htab. now apply job_tabular.
  - intros uf e. apply job_ingestion_failure.
Qed.

End BatchClaims.

(** ** Colliding Shapefile names *)

(** C10.  The Shapefile truncation is not injective: there is a frame
    with two different column names, both longer than 10 characters and
    equal on their first 10, which the rename of the Shapefile export (the
    auto-rename option on) sends to one and the same name; the export goes
    on to the driver and its notes are the two truncation warnings only:
    the collision is neither detected nor reported. *)
Theorem shapefile_truncation_collides :
  exists (gdf : GeoDataFrame Demo.Geom Z) (c1 c2 : string),
    columns gdf = [c1; c2]
    /\ c1 <> c2
    /\ too_long c1 = true /\ too_long c2 = true
    /\ columns (shp_rename (Demo.settings "shapefile") gdf []).1
       = [PyStr.take 10 c1; PyStr.take 10 c1]
    /\ (shp_rename (Demo.settings "shapefile") gdf []).2
       = [shp_warning c1 (PyStr.take 10 c1); shp_warning c2 (PyStr.take 10 c2)]
    /\ (_gdf_to_bytes (lib := Demo.lib) (Demo.settings "shapefile")
                      gdf "shapefile" "out")
       = ([shp_warning c1 (PyStr.take 10 c1); shp_warning c2 (PyStr.take 10 c2)],
          Ok ("out.shp=ESRI Shapefile:0;", "out.zip",
              [shp_warning c1 (PyStr.take 10 c1); shp_warning c2 (PyStr.take 10 c2)])).
Proof.
  exists {| columns := ["population_2020"; "population_2021"];
            features := []; crs := Some 4326%Z |},
         "population_2020", "population_2021".
  split; [reflexivity|]. split; [discriminate|].
  split; [reflexivity|]. split; [reflexivity|].
  split; [vm_compute; reflexivity|]. split; vm_compute; reflexivity.
Qed.

(** ** The properties on concrete runs *)

Module Runs.

Definition cities : GeoDataFrame Demo.Geom Z :=
  {| columns := ["population_2020"; "name"];
     features := [ {| attrs := [CNum 8400000; CStr "A"]; geom := Demo.Pt 776 129 |} ];
     crs := None |}.

Definition far_north : GeoDataFrame Demo.Geom Z :=
  {| columns := ["name"];
     features := [ {| attrs := [CStr "N"]; geom := Demo.Pt 0 100 |} ];
     crs := Some 4326%Z |}.

Definition uploads : list Upload :=
  [ {| name := "a.geojson"; getbuffer := "A" |};
    {| name := "b.kml"; getbuffer := "" |};
    {| name := "e.zip"; getbuffer := "readme.txt" |} ].

End Runs.

Lemma batch_reports_and_artifacts_witness :
  Forall (fun uf => fails_at_ingestion (lib := Demo.lib) uf = true
                    \/ job_succeeds (lib := Demo.lib) (Demo.settings "geojson") uf = true)
         Runs.uploads
  /\ count is_report (do_batch (lib := Demo.lib) (Demo.settings "geojson") Runs.uploads).1 = 3
  /\ count is_output (do_batch (lib := Demo.lib) (Demo.settings "geojson") Runs.uploads).1
     = 3 - 2.
Proof.
  assert (Hall : Forall (fun uf => fails_at_ingestion (lib := Demo.lib) uf = true
                    \/ job_succeeds (lib := Demo.lib) (Demo.settings "geojson") uf = true)
                   Runs.uploads).
  { apply Forall_cons; split; [right; vm_compute; reflexivity|].
    apply Forall_cons; split; [left; vm_compute; reflexivity|].
    apply Forall_cons; split; [left; vm_compute; reflexivity|].
    apply Forall_nil_2. }
  split; [exact Hall|].
  destruct (batch_reports_and_artifacts (lib := Demo.lib) (Demo.settings "geojson")
              Runs.uploads) as (_ & _ & Hn & _ & _ & Hk & _).
  split; [exact Hn | exact (Hk Hall)].
Defined.

Lemma reproject_decision_table_witness :
  _reproject (lib := Demo.lib) (Demo.one_feature "x") "EPSG"
  = (Demo.one_feature "x", Some "Invalid target EPSG; kept original CRS.")
  /\ _reproject (lib := Demo.lib) Runs.cities "3857"
     = (Runs.cities, Some "Source CRS unknown; cannot reproject.")
  /\ _reproject (lib := Demo.lib) (Demo.one_feature "x") "4326"
     = (Demo.one_feature "x", None)
  /\ _reproject (lib := Demo.lib) Runs.far_north "3857"
     = (Runs.far_north, Some "Reprojection failed: latitude out of range")
  /\ (_reproject (lib := Demo.lib) (Demo.one_feature "x") "3857").2
     = Some "Reprojected to EPSG:3857.".
Proof.
  split; [|split; [|split; [|split]]].
  - apply (reproject_decision_table (lib := Demo.lib) (Demo.one_feature "x") "EPSG").
    reflexivity.
  - apply (proj1 (proj2 (reproject_decision_table (lib := Demo.lib) Runs.cities "3857"))
             3857%Z); reflexivity.
  - apply (proj1 (proj2 (proj2
             (reproject_decision_table (lib := Demo.lib) (Demo.one_feature "x") "4326")))
             4326%Z 4326%Z); reflexivity.
  - apply (proj1 (proj2 (proj2 (proj2
             (reproject_decision_table (lib := Demo.lib) Runs.far_north "3857"))))
             3857%Z 4326%Z (LibraryError "latitude out of range"));
      try reflexivity; discriminate.
  - destruct (proj2 (proj2 (proj2 (proj2
             (reproject_decision_table (lib := Demo.lib) (Demo.one_feature "x") "3857"))))
             3857%Z 4326%Z
             {| columns := ["name"];
                features := [ {| attrs := [CStr "x"];
                                 geom := Demo.Moved 3857 (Demo.Pt 0 0) |} ];
                crs := Some 3857%Z |}
             eq_refl eq_refl ltac:(discriminate) eq_refl) as [Heq _].
    rewrite Heq. reflexivity.
Defined.

Lemma shapefile_auto_rename_witness :
  auto_rename_fields (Demo.settings "shapefile") = true
  /\ exists gdf' : GeoDataFrame Demo.Geom Z,
      (_gdf_to_bytes (lib := Demo.lib) (Demo.settings "shapefile") Runs.cities
                     "shapefile" "out").2
      = (shp_folder ← to_file (External := Demo.lib) gdf' "out.shp" "ESRI Shapefile";
         Ok (Demo.zip shp_folder, "out.zip",
             ["Field 'population_2020' → 'population' (Shapefile 10-char limit)"]))
      /\ columns gdf' = ["population"; "name"].
Proof.
  split; [reflexivity|].
  destruct (shapefile_auto_rename (lib := Demo.lib) (Demo.settings "shapefile")
              Runs.cities "out" eq_refl) as (gdf' & Hexp & Hcols & _).
  exists gdf'. split; [now rewrite Hexp | exact Hcols].
Defined.

Lemma kml_relabel_label_only_witness :
  crs Runs.cities = None
  /\ kml_relabel (lib := Demo.lib) Runs.cities
     = {| columns := columns Runs.cities;
          features := features Runs.cities;
          crs := Some 4326%Z |}
  /\ _gdf_to_bytes (lib := Demo.lib) (Demo.settings "gpx") Runs.cities "gpx" "out"
     = driver_write (lib := Demo.lib) Runs.cities "out" ".gpx" "GPX".
Proof.
  split; [reflexivity|].
  destruct (kml_relabel_label_only (lib := Demo.lib) (Demo.settings "gpx") Runs.cities
              "out" 4326%Z eq_refl (or_introl eq_refl)) as (Hrel & _ & Hgpx).
  split; [exact Hrel | exact Hgpx].
Defined.



(** The CSV scenario of the specification: of the rows A, B and C, row B
    has no latitude; the frame has the two points A and C. *)
Lemma csv_points_drop_bad_rows_witness :
  exists gdf : GeoDataFrame Demo.Geom Z,
    _read_csv_points (lib := Demo.lib) [("points.csv", "lat,lon,name")]
                     "points.csv" "lat" "lon" "4326" = Ok gdf
    /\ length (features gdf) = 2
    /\ (fun f => cell_at 2 (attrs f)) <$> features gdf = [CStr "A"; CStr "C"]
    /\ geom <$> features gdf
       = [Demo.Pt (776 # 10) (129 # 10); Demo.Pt (777 # 10) (130 # 10)]
    /\ crs gdf = Some 4326%Z.
Proof.
  eexists. split.
  - apply (csv_points_drop_bad_rows (lib := Demo.lib) [("points.csv", "lat,lon,name")]
             "points.csv" "lat" "lon" "4326" "lat,lon,name" Demo.table 0 1 4326%Z);
      try reflexivity.
    left. split; reflexivity.
  - repeat split; reflexivity.
Defined.

Lemma zip_ingestion_first_shp_witness :
  _read_vector_any (lib := Demo.lib) [("e.zip", "readme.txt")] "e.zip"
  = Raise (ValueError "No .shp found inside the uploaded .zip")
  /\ _read_vector_any (lib := Demo.lib) [("d.zip", "data/roads.shp")] "d.zip"
     = Ok (Demo.one_feature "member").
Proof.
  split.
  - apply (proj1 (zip_ingestion_first_shp (lib := Demo.lib) [("e.zip", "readme.txt")]
                    "e.zip" "readme.txt" [("readme.txt", "member")]
                    eq_refl eq_refl eq_refl)).
    reflexivity.
  - rewrite (proj2 (zip_ingestion_first_shp (lib := Demo.lib)
                      [("d.zip", "data/roads.shp")]
                      "d.zip" "data/roads.shp" [("data/roads.shp", "member")]
                      eq_refl eq_refl eq_refl) "data/roads.shp" [] eq_refl).
    reflexivity.
Defined.

(** ** Further runs *)

Example lower_shp : PyStr.lower "SHP" = "shp".
Proof. reflexivity. Qed.

Example suffix_zip : PyPath.suffix "roads.v2.ZIP" = ".ZIP".
Proof. reflexivity. Qed.

Example stem_zip : PyPath.stem "roads.v2.ZIP" = "roads.v2".
Proof. reflexivity. Qed.

Example suffix_hidden : PyPath.suffix ".bashrc" = "".
Proof. reflexivity. Qed.

Example matches_nested : PyPath.matches_shp "data/sub/roads.shp" = true.
Proof. reflexivity. Qed.

Example matches_upper_case : PyPath.matches_shp "ROADS.SHP" = false.
Proof. reflexivity. Qed.

(** Buffering an open ring fails in the demo library: the stage is
    skipped with its failure note, and the frame is as before. *)
(** Field names are measured and cut in characters, not bytes: a name of
    ten characters is kept whatever its byte length, and a longer one
    keeps its first ten characters whole. *)
Example len_accented : PyStr.len "población1" = 10 /\ String.length "población1" = 11.
Proof. split; reflexivity. Qed.

Example short_accented_kept :
  too_long "población1" = false /\ shp_name "población1" = "población1".
Proof. split; reflexivity. Qed.

Example long_accented_cut :
  too_long "código_municipio" = true
  /\ shp_name "código_municipio" = "código_mun".
Proof. split; reflexivity. Qed.

Example truncate_accented :
  _truncate_fields_for_shp ["población1"; "código_municipio"]
  = ({[ "código_municipio" := "código_mun" ]},
     ["Field 'código_municipio' → 'código_mun' (Shapefile 10-char limit)"]).
Proof. vm_compute. reflexivity. Qed.

Example conditioning_open_ring :
  _apply_repairs_and_ops (lib := Demo.lib)
    {| target_epsg := "4326"; do_make_valid := false; use_buffer_fix := true;
       do_simplify := true; simplify_tol := 1 # 2; auto_rename_fields := true;
       out_fmt := "geojson" |}
    {| columns := []; features := [ {| attrs := []; geom := Demo.Ring false |} ];
       crs := None |}
  = ({| columns := []; features := [ {| attrs := []; geom := Demo.Ring false |} ];
        crs := None |},
     ["buffer(0) failed: TopologyException"; "Simplified (tol=1/2)."]).
Proof. vm_compute. reflexivity. Qed.

(** A KML export on a build without the driver fails the job: the report
    ends with the failure line and the archive holds the report only. *)
Example batch_without_kml_driver :
  (do_batch (lib := Demo.lib_no_kml) (Demo.settings "kml")
            [ {| name := "a.geojson"; getbuffer := "A" |} ]).1
  = [("a_report.txt",
      PyStr.join_lines
        ["Loaded vector with 1 features. CRS=EPSG:4326.";
         "Applied make_valid.";
         "Read/Process failed: unsupported driver: KML"])].
Proof. vm_compute. reflexivity. Qed.

(** * Further properties of the code *)

(** ** Ingestion: errors and what the frame keeps *)

Section IngestionErrors.

Context {Geometry CRS : Type} {lib : External Geometry CRS}.

Local Abbreviation GDF := (GeoDataFrame Geometry CRS).

Lemma col_index_None (c : string) (cols : list string) :
  col_index c cols = None <-> c ∉ cols.
Proof.
  unfold col_index. rewrite fmap_None, list_find_None, Forall_forall.
  split.
  - intros H Hc. exact (H c Hc eq_refl).
  - intros H x Hx ->. exact (H Hx).
Qed.

Lemma col_index_Some (c : string) (cols : list string) (i : nat) :
  col_index c cols = Some i -> cols !! i = Some c.
Proof.
  unfold col_index. intros H. apply fmap_Some in H as ([j x] & Hfind & ->).
  apply list_find_Some in Hfind as (Hj & -> & _). exact Hj.
Qed.

(** The table a tabular file holds, as [_read_csv_points] loads it. *)
Lemma read_csv_points_inv (dir : Listing) (path lat_col lon_col src_epsg : string)
    (gdf : GDF) :
  _read_csv_points dir path lat_col lon_col src_epsg = Ok gdf ->
  exists (df : DataFrame) (ilat ilon : nat) (c : CRS),
    col_index lat_col (df_columns df) = Some ilat
    /\ col_index lon_col (df_columns df) = Some ilon
    /\ crs_from_string ("EPSG:" +:+ src_epsg) = Ok c
    /\ gdf = {| columns := df_columns df;
                features := omap (point_of_row ilat ilon) (df_rows df);
                crs := Some c |}.
Proof.
  unfold _read_csv_points. intros H.
  destruct (if String.eqb _ ".csv" then _ else _) as [df|e]; simpl in H; [|discriminate].
  destruct (col_index lat_col (df_columns df)) as [ilat|] eqn:Hlat; [|discriminate].
  destruct (col_index lon_col (df_columns df)) as [ilon|] eqn:Hlon; [|discriminate].
  rewrite coerce_columns, rows_to_points in H. simpl in H.
  destruct (crs_from_string _) as [c|e] eqn:Hc; simpl in H; [|discriminate].
  exists df, ilat, ilon, c. inversion H. auto.
Qed.


(** X2.  When the table of a tabular file lacks the chosen latitude or
    longitude column, the ingestion fails with the error "Selected
    Lat/Lon columns not found." and no frame is built. *)
Theorem csv_missing_column_error (dir : Listing)
    (path lat_col lon_col src_epsg content : string) (df : DataFrame) :
  PyStr.lower (PyPath.suffix path) = ".csv" ->
  file_bytes dir path = Ok content ->
  read_csv content = Ok df ->
  lat_col ∉ df_columns df \/ lon_col ∉ df_columns df ->
  _read_csv_points dir path lat_col lon_col src_epsg
  = Raise (ValueError "Selected Lat/Lon columns not found.").
Proof.
  intros Hext Hfile Hread Hmiss. unfold _read_csv_points.
  rewrite Hext, Hfile. simpl. rewrite Hread. simpl.
  destruct Hmiss as [H|H]; apply col_index_None in H; rewrite H.
  - reflexivity.
  - now destruct (col_index lat_col (df_columns df)).
Qed.

(** X3.  Reading a file that is not [.csv] goes through [read_excel]: an
    [ImportError] (openpyxl missing) is turned into the [RuntimeError]
    that tells to install openpyxl or export CSV; any other exception of
    the reader is raised unchanged. *)
Theorem xlsx_reader_errors (dir : Listing)
    (path lat_col lon_col src_epsg content : string) (e : exn) :
  PyStr.lower (PyPath.suffix path) <> ".csv" ->
  file_bytes dir path = Ok content ->
  read_excel content = Raise e ->
  _read_csv_points dir path lat_col lon_col src_epsg
  = Raise (match e with
           | ImportError _ =>
               RuntimeError "Reading .xlsx needs 'openpyxl'. Install it or export CSV."
           | _ => e
           end).
Proof.
  intros Hext Hfile Hread. unfold _read_csv_points.
  rewrite (proj2 (String.eqb_neq _ _) Hext), Hfile. simpl. rewrite Hread.
  now destruct e.
Qed.

Lemma point_of_row_cells (ilat ilon : nat) (r : list Cell) (f : Feature Geometry) :
  point_of_row ilat ilon r = Some f ->
  exists x y,
    geom f = Point x y
    /\ cell_at ilon (attrs f) = CNum x /\ cell_at ilat (attrs f) = CNum y
    /\ length (attrs f) = length r
    /\ forall k, k <> ilat -> k <> ilon -> attrs f !! k = r !! k.
Proof.
  unfold point_of_row.
  destruct (to_numeric_cell (cell_at ilat r)) as [y| |] eqn:Hy; try discriminate.
  destruct (to_numeric_cell (cell_at ilon r)) as [x| |] eqn:Hx; try discriminate.
  intros [= <-]. exists x, y. simpl.
  assert (Hlat : ilat < length r).
  { apply cell_at_in_range. destruct (cell_at ilat r); [reflexivity.. | discriminate]. }
  assert (Hlon : ilon < length r).
  { apply cell_at_in_range. destruct (cell_at ilon r); [reflexivity.. | discriminate]. }
  split; [reflexivity|]. split; [|split; [|split]].
  - apply cell_at_insert_eq. rewrite length_insert. exact Hlon.
  - destruct (decide (ilon = ilat)) as [Heq|Hne].
    + rewrite Heq in *. rewrite cell_at_insert_eq by (rewrite length_insert; lia).
      congruence.
    + rewrite cell_at_insert_ne by exact Hne. now apply cell_at_insert_eq.
  - now rewrite !length_insert.
  - intros k Hk1 Hk2. rewrite !list_lookup_insert_ne by congruence. reflexivity.
Qed.

(** X4.  Whenever tabular ingestion returns a frame, the chosen columns
    are columns of the frame, its CRS is known, and every feature is a
    point whose coordinates are the numbers held by its own longitude and
    latitude attributes. *)
Theorem csv_points_match_attributes (dir : Listing)
    (path lat_col lon_col src_epsg : string) (gdf : GDF) :
  _read_csv_points dir path lat_col lon_col src_epsg = Ok gdf ->
  exists ilat ilon : nat,
    columns gdf !! ilat = Some lat_col
    /\ columns gdf !! ilon = Some lon_col
    /\ is_Some (crs gdf)
    /\ Forall (fun f => exists x y,
                 geom f = Point x y
                 /\ cell_at ilon (attrs f) = CNum x
                 /\ cell_at ilat (attrs f) = CNum y)
              (features gdf).
Proof.
  intros H. apply read_csv_points_inv in H as (df & ilat & ilon & c & Hlat & Hlon & _ & ->).
  exists ilat, ilon. simpl.
  split; [now apply col_index_Some|]. split; [now apply col_index_Some|].
  split; [eauto|].
  apply Forall_forall. intros f Hf.
  apply list_elem_of_omap in Hf as (r & _ & Hr).
  destruct (point_of_row_cells _ _ _ _ Hr) as (x & y & Hg & Hx & Hy & _).
  eauto.
Qed.


End IngestionErrors.

(** ** Conditioning, reprojection and export: what else they keep *)

Section PipelineInvariants.

Context {Geometry CRS : Type} {lib : External Geometry CRS}.

Local Abbreviation GDF := (GeoDataFrame Geometry CRS).

(** X6.  Geometry conditioning never changes the CRS of the frame,
    whatever stages run and whether they succeed. *)
Theorem conditioning_keeps_crs (s : Settings) (gdf : GDF) :
  crs (_apply_repairs_and_ops s gdf).1 = crs gdf.
Proof. apply conditioning_frame. Qed.

(** X7.  Reprojection is silent exactly when the target parses and the
    CRS of the frame already has that EPSG code, and it then returns the
    frame itself; a note that is given is never empty; and the CRS of the
    result is known exactly when the CRS of the input is. *)
Theorem reproject_silent_iff (gdf : GDF) (epsg : string) :
  ((_reproject gdf epsg).2 = None
   <-> exists tgt c, py_int epsg = Some tgt /\ crs gdf = Some c /\ to_epsg c = Some tgt)
  /\ ((_reproject gdf epsg).2 = None -> (_reproject gdf epsg).1 = gdf)
  /\ (forall n, (_reproject gdf epsg).2 = Some n -> n <> EmptyString)
  /\ (is_Some (crs (_reproject gdf epsg).1) <-> is_Some (crs gdf)).
Proof.
  unfold _reproject.
  destruct (py_int epsg) as [tgt|] eqn:Hint.
  2:{ cbn [fst snd]. split; [|split; [|split]].
      - split; [discriminate | intros (? & ? & ? & _); discriminate].
      - discriminate.
      - now intros n [= <-].
      - reflexivity. }
  destruct (crs gdf) as [c|] eqn:Hc.
  2:{ cbn [fst snd]. split; [|split; [|split]].
      - split; [discriminate | intros (? & ? & _ & ? & _); discriminate].
      - discriminate.
      - now intros n [= <-].
      - now rewrite Hc. }
  destruct (decide (to_epsg c = Some tgt)) as [He|He].
  { cbn [fst snd]. split; [|split; [|split]].
    - split; [eauto | reflexivity].
    - reflexivity.
    - discriminate.
    - now rewrite Hc. }
  assert (Hno : ~ exists tgt0 c0, Some tgt = Some tgt0 /\ Some c = Some c0
                                  /\ to_epsg c0 = Some tgt0).
  { intros (? & ? & [= <-] & [= <-] & ?). contradiction. }
  destruct (to_crs gdf tgt) as [g'|e] eqn:Ht; cbn [fst snd].
  - split; [split; [discriminate | intros H; destruct (Hno H)]|].
    split; [discriminate|]. split; [now intros n [= <-]|].
    destruct (to_crs_target _ _ _ Ht) as (dst & _ & ->). rewrite ?Hc.
    split; eauto.
  - split; [split; [discriminate | intros H; destruct (Hno H)]|].
    split; [discriminate|]. split; [now intros n [= <-]|]. now rewrite ?Hc.
Qed.

(** X8.  Reprojecting twice to the same target: when the CRS the library
    builds for the target EPSG code reports that code, a frame that has
    just been transformed is returned as it is, without a note, by a
    second reprojection to the same target. *)
Theorem reproject_twice (gdf gdf' : GDF) (epsg : string) (tgt : Z) (c : CRS) :
  py_int epsg = Some tgt ->
  crs gdf = Some c ->
  to_epsg c <> Some tgt ->
  to_crs gdf tgt = Ok gdf' ->
  (forall dst, crs_from_epsg tgt = Ok dst -> to_epsg dst = Some tgt) ->
  _reproject gdf epsg = (gdf', Some ("Reprojected to EPSG:" +:+ pretty tgt +:+ "."))
  /\ _reproject gdf' epsg = (gdf', None).
Proof.
  intros Hint Hc Hne Ht Hround. unfold _reproject.
  rewrite Hint, Hc, decide_False, Ht by exact Hne.
  split; [reflexivity|].
  destruct (to_crs_target _ _ _ Ht) as (dst & Hdst & ->).
  now rewrite decide_True by auto.
Qed.

Lemma truncate_short (cols : list string) :
  (forall c, c ∈ cols -> too_long c = false) ->
  _truncate_fields_for_shp cols = (∅, []).
Proof.
  intros Hshort.
  pose proof (truncate_warnings cols) as Hw.
  pose proof (truncate_mapping cols) as Hm.
  destruct (_truncate_fields_for_shp cols) as [m w]. simpl in Hw, Hm.
  f_equal.
  - apply map_eq. intros c. rewrite Hm, lookup_empty.
    destruct (decide (c ∈ cols)) as [Hc|Hc].
    + now rewrite (Hshort c Hc), andb_false_r.
    + now rewrite bool_decide_eq_false_2.
  - rewrite Hw. now apply none_too_long.
Qed.

Lemma shp_rename_short (s : Settings) (gdf : GDF) (msgs : list string) :
  (forall c, c ∈ columns gdf -> too_long c = false) ->
  shp_rename s gdf msgs = (gdf, msgs).
Proof.
  intros Hshort. unfold shp_rename. rewrite truncate_short.
  - rewrite bool_decide_eq_false_2 by tauto. now rewrite andb_false_r.
  - intros c Hc. unfold all_columns in Hc. apply elem_of_app in Hc as [Hc|Hc].
    + now apply Hshort.
    + apply list_elem_of_singleton in Hc. now subst.
Qed.

Lemma shp_name_fits (c : string) : PyStr.len (shp_name c) <= 10.
Proof.
  destruct (too_long c) eqn:Hc.
  - now rewrite shp_name_length.
  - rewrite shp_name_short by exact Hc. now apply Nat.ltb_ge.
Qed.

(** X9.  With the auto-rename option off, the Shapefile export hands the
    frame to the driver as it is and records no note, however long its
    column names are. *)
Theorem shapefile_rename_off (s : Settings) (gdf : GDF) (base : string) :
  auto_rename_fields s = false ->
  _gdf_to_bytes s gdf "shapefile" base
  = ([], shp_folder ← to_file gdf (base +:+ ".shp") "ESRI Shapefile";
         Ok (zip_deflated shp_folder, base +:+ ".zip", [])).
Proof.
  intros Hoff. rewrite export_shapefile by reflexivity.
  unfold shp_rename. destruct (_truncate_fields_for_shp _) as [m w].
  now rewrite Hoff.
Qed.

(** X10.  After the Shapefile rename (option on) no column name is longer
    than 10 characters ([PyStr.len]), and renaming the result again changes
    nothing and adds no note. *)
Theorem shapefile_rename_settles (s : Settings) (gdf : GDF) (msgs : list string) :
  auto_rename_fields s = true ->
  Forall (fun c => PyStr.len c <= 10) (columns (shp_rename s gdf msgs).1)
  /\ shp_rename s (shp_rename s gdf msgs).1 msgs = ((shp_rename s gdf msgs).1, msgs).
Proof.
  intros Hon. destruct (shp_rename_on s gdf msgs Hon) as (Hc & _).
  assert (Hfit : Forall (fun c => PyStr.len c <= 10)
                        (columns (shp_rename s gdf msgs).1)).
  { rewrite Hc. apply Forall_fmap, Forall_forall. intros c _. apply shp_name_fits. }
  split; [exact Hfit|].
  apply shp_rename_short. intros c Hin.
  rewrite Forall_forall in Hfit. apply Nat.ltb_ge. now apply Hfit.
Qed.

Lemma lower_ascii_idem (a : ascii) :
  PyStr.lower_ascii (PyStr.lower_ascii a) = PyStr.lower_ascii a.
Proof. destruct a as [[] [] [] [] [] [] [] []]; reflexivity. Qed.

Lemma lower_idem (str : string) : PyStr.lower (PyStr.lower str) = PyStr.lower str.
Proof.
  induction str as [|a str IH]; [reflexivity|].
  cbn [PyStr.lower]. now rewrite lower_ascii_idem, IH.
Qed.

(** X11.  The export does not depend on the case of the format key: a key
    and its lower-cased form give the same result. *)
Theorem export_ignores_case (s : Settings) (gdf : GDF) (fmt base : string) :
  _gdf_to_bytes s gdf fmt base = _gdf_to_bytes s gdf (PyStr.lower fmt) base.
Proof. unfold _gdf_to_bytes. now rewrite lower_idem. Qed.


(** X13.  The relabel before a KML write leaves the frame as it is when
    its CRS already has the EPSG code 4326, and also when building the
    CRS EPSG:4326 raises: that exception is swallowed and the write goes
    on with the frame as given. *)
Theorem kml_relabel_unchanged (gdf : GDF) :
  (exists c, crs gdf = Some c /\ to_epsg c = Some 4326%Z)
  \/ (exists e, crs_from_epsg 4326 = Raise e) ->
  kml_relabel gdf = gdf
  /\ forall s base,
       _gdf_to_bytes s gdf "kml" base = driver_write gdf base ".kml" "KML".
Proof.
  intros H.
  assert (Hsame : kml_relabel gdf = gdf).
  { destruct H as [(c & Hc & He) | (e & He)].
    - eapply kml_relabel_wgs84; eassumption.
    - unfold kml_relabel, set_crs. rewrite He. simpl.
      now destruct (match crs gdf with None => true | Some c => _ end). }
  split; [exact Hsame|]. intros s base.
  rewrite export_kml by reflexivity. now rewrite Hsame.
Qed.

End PipelineInvariants.

(** ** The batch: the reports and the archive *)

Section BatchReports.

Context {Geometry CRS : Type} {lib : External Geometry CRS}.

Local Abbreviation GDF := (GeoDataFrame Geometry CRS).

Lemma append_empty_r (x : string) : x +:+ EmptyString = x.
Proof.
  induction x as [|a x IH]; [reflexivity|].
  change (String a (x +:+ EmptyString) = String a x). now rewrite IH.
Qed.

Lemma join_lines_cons (c : ascii) (x : string) (rest : list string) :
  exists tail, PyStr.join_lines (String c x :: rest) = String c (x +:+ tail).
Proof.
  destruct rest as [|l rest].
  - exists EmptyString. cbn [PyStr.join_lines]. f_equal. symmetry. apply append_empty_r.
  - eexists. cbn [PyStr.join_lines]. reflexivity.
Qed.

Lemma str_or_join (l d : string) (rest : list string) :
  l <> EmptyString ->
  str_or (PyStr.join_lines (l :: rest)) d = PyStr.join_lines (l :: rest).
Proof.
  destruct l as [|c x]; [congruence|]. intros _.
  destruct (join_lines_cons c x rest) as [tail ->]. apply str_or_nonempty.
Qed.

(** The report of a job is made of the lines of [report_lines_of]. *)
Lemma job_report_text (s : Settings) (uf : Upload) :
  job_report s uf = [(report_of uf, PyStr.join_lines (report_lines_of s uf))].
Proof.
  unfold job_report, report_lines_of, batch_iteration, is_tabular, export_of,
    loaded_line, note_lines, _save_upload_to.
  cbn beta iota zeta. cbn [fst snd].
  destruct (dict_mem _ TAB_INPUTS); [reflexivity|].
  unfold convert_job.
  destruct (_read_vector_any _ _) as [gdf|e]; [|reflexivity].
  destruct (_apply_repairs_and_ops s gdf) as [g1 n1]. cbn [fst snd].
  destruct (_reproject g1 (target_epsg s)) as [g2 n2]. cbn [fst snd app].
  destruct (_gdf_to_bytes s g2 (out_fmt s) _).2 as [[[b n] m]|e];
    cbn [fst snd]; unfold report_of, report_name;
    (destruct n2 as [note|]; [destruct (decide (note = EmptyString))|]);
    cbn [app]; (rewrite str_or_join by discriminate);
    rewrite <- ?app_assoc; cbn [app]; reflexivity.
Qed.

Lemma job_report_is_filter (s : Settings) (uf : Upload) :
  job_report s uf = filter (fun e => is_report e = true) (job_entries s uf).
Proof.
  destruct (job_shape s uf) as (text & -> & Hshape).
  pose proof (report_name_is_report (PyPath.stem (name uf)) text) as Hrep.
  destruct Hshape as [(_ & n & b & Hn & ->) | (_ & ->)];
    rewrite !filter_cons, ?Hn, Hrep, ?decide_False, decide_True by (discriminate || reflexivity);
    reflexivity.
Qed.

Lemma reports_filter_archive (s : Settings) (ufs : list Upload) :
  (do_batch s ufs).2 = filter (fun e => is_report e = true) (do_batch s ufs).1.
Proof.
  rewrite do_batch_concat. cbn [fst snd].
  induction ufs as [|uf ufs IH]; [reflexivity|].
  rewrite !fmap_cons. cbn [concat]. rewrite filter_app, IH, job_report_is_filter.
  reflexivity.
Qed.

(** X14.  The reports kept in the session after a batch are exactly the
    report entries of the result archive, in the same order. *)
Theorem session_reports_are_archive_reports (s : Settings) (ufs : list Upload) :
  (do_batch s ufs).2 = filter (fun e => is_report e = true) (do_batch s ufs).1.
Proof. apply reports_filter_archive. Qed.

Lemma job_entries_length (s : Settings) (uf : Upload) :
  length (job_entries s uf) = 1 + (if job_succeeds s uf then 1 else 0).
Proof.
  destruct (job_shape s uf) as (text & _ & [(-> & n & b & _ & ->) | (-> & ->)]);
    reflexivity.
Qed.

(** X15.  The result archive of a batch of N jobs holds N entries plus one
    per job that went through: between N and 2N entries. *)
Theorem archive_size (s : Settings) (ufs : list Upload) :
  length (do_batch s ufs).1 = length ufs + count (job_succeeds s) ufs
  /\ length ufs <= length (do_batch s ufs).1 <= 2 * length ufs.
Proof.
  rewrite do_batch_concat. cbn [fst].
  assert (H : length (concat (job_entries s <$> ufs))
              = length ufs + count (job_succeeds s) ufs).
  { induction ufs as [|uf ufs IH]; [reflexivity|].
    rewrite fmap_cons. cbn [concat]. rewrite length_app, IH, job_entries_length.
    rewrite count_cons. cbn [length]. lia. }
  split; [exact H|]. rewrite H.
  pose proof (count_le_length (job_succeeds s) ufs). lia.
Qed.

Lemma prefix_app (p x : string) : String.prefix p (p +:+ x) = true.
Proof.
  induction p as [|a p IH]; [now destruct x|].
  change (String a p +:+ x) with (String a (p +:+ x)).
  cbn [String.prefix]. destruct (ascii_dec a a); [exact IH | contradiction].
Qed.

Lemma append_assoc (a b c : string) : (a +:+ b) +:+ c = a +:+ (b +:+ c).
Proof.
  induction a as [|ch a IH]; [reflexivity|].
  change (String ch ((a +:+ b) +:+ c) = String ch (a +:+ (b +:+ c))). now rewrite IH.
Qed.

Lemma prefix_join (p x : string) (rest : list string) :
  String.prefix p (PyStr.join_lines ((p +:+ x) :: rest)) = true.
Proof.
  destruct rest as [|l rest]; cbn [PyStr.join_lines].
  - apply prefix_app.
  - rewrite append_assoc. apply prefix_app.
Qed.

(** X16.  Every report of a batch opens with the skip note, with the
    failure line of the loader or with the load line: the report is never
    empty, and the fallback text "No details." is never what is written. *)
Theorem report_opening_line (s : Settings) (ufs : list Upload) :
  Forall (fun r =>
            (String.prefix "Skipped: " r.2 = true
             \/ String.prefix "Read/Process failed: " r.2 = true
             \/ String.prefix "Loaded vector with " r.2 = true)
            /\ r.2 <> "No details.")
         (do_batch s ufs).2.
Proof.
  rewrite do_batch_concat. cbn [snd].
  induction ufs as [|uf ufs IH]; [constructor|].
  rewrite fmap_cons. cbn [concat]. apply Forall_app. split; [|exact IH].
  rewrite job_report_text. apply Forall_singleton. cbn [snd].
  assert (H : String.prefix "Skipped: " (PyStr.join_lines (report_lines_of s uf)) = true
              \/ String.prefix "Read/Process failed: "
                   (PyStr.join_lines (report_lines_of s uf)) = true
              \/ String.prefix "Loaded vector with "
                   (PyStr.join_lines (report_lines_of s uf)) = true).
  { unfold report_lines_of.
    destruct (is_tabular uf); [left; reflexivity|].
    destruct (_read_vector_any _ _) as [gdf|e].
    - right; right. cbn zeta. unfold loaded_line. cbn [app]. apply prefix_join.
    - right; left. apply (prefix_join _ _ []). }
  split; [exact H|].
  intros Heq. rewrite Heq in H. destruct H as [H|[H|H]]; discriminate H.
Qed.

End BatchReports.

Section ReportLines.

Context {Geometry CRS : Type} {lib : External Geometry CRS}.

Local Abbreviation GDF := (GeoDataFrame Geometry CRS).

Lemma job_entries_split (s : Settings) (uf : Upload) :
  job_entries s uf = job_artifact s uf ++ job_report s uf.
Proof.
  unfold job_entries, job_report, job_artifact, batch_iteration, is_tabular,
    export_of, _save_upload_to.
  cbn beta iota zeta. cbn [fst snd].
  destruct (dict_mem _ TAB_INPUTS); [reflexivity|].
  unfold convert_job.
  destruct (_read_vector_any _ _) as [gdf|e]; [|reflexivity].
  destruct (_apply_repairs_and_ops s gdf) as [g1 n1]. cbn [fst snd].
  destruct (_reproject g1 (target_epsg s)) as [g2 n2]. cbn [fst snd].
  now destruct (_gdf_to_bytes s g2 (out_fmt s) _).2 as [[[b n] m]|e].
Qed.

(** X17.  The report of a job that is not tabular closes with its
    terminal line: "Exported: <name>", naming the artifact the job added
    to the archive, when the job went through, and "Read/Process failed:
    <error>" with no artifact otherwise. *)
Theorem report_closing_line (s : Settings) (uf : Upload) :
  is_tabular uf = false ->
  job_entries s uf
  = job_artifact s uf ++ [(report_of uf, PyStr.join_lines (report_lines_of s uf))]
  /\ ((exists out_name out_bytes,
         job_artifact s uf = [(out_name, out_bytes)]
         /\ last (report_lines_of s uf) = Some ("Exported: " +:+ out_name))
      \/ (exists e,
            job_artifact s uf = []
            /\ last (report_lines_of s uf)
               = Some ("Read/Process failed: " +:+ str_exn e))).
Proof.
  intros Htab. rewrite job_entries_split, job_report_text.
  split; [reflexivity|].
  unfold job_artifact, report_lines_of. rewrite Htab.
  destruct (_read_vector_any _ _) as [gdf|e]; [|right; exists e; split; reflexivity].
  cbn zeta. destruct (export_of s uf gdf) as [[[b n] m]|e].
  - left. exists n, b. split; [reflexivity|].
    now rewrite !app_assoc, last_snoc.
  - right. exists e. split; [reflexivity|].
    now rewrite !app_assoc, last_snoc.
Qed.

Lemma starts_app (cs : list ascii) (p x : string) :
  starts_with_one_of cs p -> starts_with_one_of cs (p +:+ x).
Proof. destruct p as [|c p]; [intros []|]. exact (fun H => H). Qed.

Lemma stage_notes (cs : list ascii) (enabled : bool) (op : GDF -> Exc GDF)
    (applied failed : string) (st st' : GDF * list string) :
  starts_with_one_of cs applied ->
  starts_with_one_of cs failed ->
  stage enabled op applied failed st st' ->
  Forall (starts_with_one_of cs) st.2 -> Forall (starts_with_one_of cs) st'.2.
Proof.
  intros Ha Hf Hstage Hst. unfold stage in Hstage. destruct enabled.
  - destruct Hstage as [g g' notes _ | g e notes _]; cbn [snd] in *;
      apply Forall_app; split; try assumption; apply Forall_singleton;
      [exact Ha | now apply starts_app].
  - now subst.
Qed.

Ltac first_char :=
  cbn; repeat first [apply list_elem_of_here | apply list_elem_of_further].

Lemma conditioning_note_chars (s : Settings) (gdf : GDF) :
  Forall (starts_with_one_of ["A"; "m"; "b"; "S"]%char) (_apply_repairs_and_ops s gdf).2.
Proof.
  destruct (conditioning_stages s gdf) as (st1 & st2 & H1 & H2 & H3).
  eapply (stage_notes ["A"; "m"; "b"; "S"]%char) in H1;
    [| first_char | first_char | constructor].
  eapply (stage_notes ["A"; "m"; "b"; "S"]%char) in H2;
    [| first_char | first_char | exact H1].
  eapply (stage_notes ["A"; "m"; "b"; "S"]%char) in H3;
    [exact H3 | | first_char | exact H2].
  apply (starts_app _ "Simplified (tol="). first_char.
Qed.

Lemma reproject_note_chars (gdf : GDF) (epsg : string) :
  Forall (starts_with_one_of ["I"; "S"; "R"]%char) (note_lines (_reproject gdf epsg).2).
Proof.
  unfold _reproject, note_lines.
  destruct (py_int epsg) as [tgt|]; [|apply Forall_singleton; first_char].
  destruct (crs gdf) as [c|]; [|apply Forall_singleton; first_char].
  destruct (decide (to_epsg c = Some tgt)); [constructor|].
  destruct (to_crs gdf tgt); cbn [snd];
    (rewrite decide_False by discriminate); apply Forall_singleton.
  - apply (starts_app _ "Reprojected to EPSG:"). first_char.
  - apply (starts_app _ "Reprojection failed: "). first_char.
Qed.

Lemma shp_warning_char (c newc : string) :
  starts_with_one_of ["K"; "G"; "F"]%char (shp_warning c newc).
Proof. unfold shp_warning. apply (starts_app _ "Field '"). first_char. Qed.

Lemma export_note_chars (s : Settings) (gdf : GDF) (fmt base : string) :
  Forall (starts_with_one_of ["K"; "G"; "F"]%char) (_gdf_to_bytes s gdf fmt base).1.
Proof.
  unfold _gdf_to_bytes.
  destruct (String.eqb _ "geojson"); [constructor|].
  destruct (String.eqb _ "gpkg"); [constructor|].
  destruct (String.eqb _ "kml").
  { destruct (to_file (kml_relabel gdf) _ _); cbn [fst app]; [constructor|].
    apply Forall_singleton. apply (starts_app _ "KML write failed ("). first_char. }
  destruct (String.eqb _ "gpx").
  { destruct (to_file gdf _ _); cbn [fst app]; [constructor|].
    apply Forall_singleton. apply (starts_app _ "GPX write failed ("). first_char. }
  destruct (String.eqb _ "shapefile"); [|constructor].
  unfold shp_rename. pose proof (truncate_warnings (all_columns gdf)) as Hw.
  destruct (_truncate_fields_for_shp (all_columns gdf)) as [m w]. simpl in Hw. subst w.
  destruct (auto_rename_fields s && bool_decide (m ≠ ∅)); cbn [fst app]; [|constructor].
  unfold shp_warnings. apply Forall_fmap, Forall_forall. intros c _.
  apply shp_warning_char.
Qed.

Lemma chars_apart (str : string) :
  starts_with_one_of ["K"; "G"; "F"]%char str ->
  starts_with_one_of ["L"; "A"; "m"; "b"; "S"; "I"; "R"]%char str -> False.
Proof.
  destruct str as [|c str]; [intros []|]. cbn.
  rewrite !elem_of_cons, !elem_of_nil.
  intros [->|[->|[->|[]]]] H; repeat (destruct H as [H|H]; [discriminate H|]);
    exact H.
Qed.

Lemma starts_weaken (cs cs' : list ascii) (str : string) :
  cs ⊆ cs' -> starts_with_one_of cs str -> starts_with_one_of cs' str.
Proof. intros Hsub. destruct str; [exact (fun H => H)|]. apply Hsub. Qed.

(** X18.  When the export of a batch job raises, the report of the job is
    the load line, the conditioning and reprojection notes and the failure
    line: no note the export had recorded before it raised (the advice of
    a failed KML or GPX write, the Shapefile truncation warnings) is a
    line of the report. *)
Theorem failed_export_notes_lost (s : Settings) (uf : Upload) (gdf : GDF) (e : exn) :
  is_tabular uf = false ->
  _read_vector_any (_save_upload_to uf).1 (_save_upload_to uf).2 = Ok gdf ->
  export_of s uf gdf = Raise e ->
  job_entries s uf = [(report_of uf, PyStr.join_lines (report_lines_of s uf))]
  /\ report_lines_of s uf
     = [loaded_line gdf] ++ (_apply_repairs_and_ops s gdf).2
         ++ note_lines (_reproject (_apply_repairs_and_ops s gdf).1 (target_epsg s)).2
         ++ ["Read/Process failed: " +:+ str_exn e]
  /\ forall m, m ∈ export_notes_of s uf gdf -> m ∉ report_lines_of s uf.
Proof.
  intros Htab Hread Hexp.
  assert (Hlines : report_lines_of s uf
     = [loaded_line gdf] ++ (_apply_repairs_and_ops s gdf).2
         ++ note_lines (_reproject (_apply_repairs_and_ops s gdf).1 (target_epsg s)).2
         ++ ["Read/Process failed: " +:+ str_exn e]).
  { unfold report_lines_of. rewrite Htab, Hread. cbn zeta. now rewrite Hexp. }
  split; [|split; [exact Hlines|]].
  - rewrite job_entries_split, job_report_text. unfold job_artifact.
    now rewrite Htab, Hread, Hexp.
  - intros m Hm Hin.
    assert (HK : starts_with_one_of ["K"; "G"; "F"]%char m).
    { pose proof (export_note_chars s
                    (_reproject (_apply_repairs_and_ops s gdf).1 (target_epsg s)).1
                    (out_fmt s) (PyPath.stem (name uf))) as Hall.
      rewrite Forall_forall in Hall. now apply Hall. }
    apply (chars_apart m HK).
    rewrite Hlines in Hin. rewrite !elem_of_app in Hin.
    destruct Hin as [Hin|[Hin|[Hin|Hin]]].
    + apply list_elem_of_singleton in Hin. subst m.
      apply (starts_app _ "Loaded vector with "). first_char.
    + pose proof (conditioning_note_chars s gdf) as Hall.
      rewrite Forall_forall in Hall. eapply starts_weaken; [|now apply Hall].
      intros c; rewrite !elem_of_cons, !elem_of_nil; tauto.
    + pose proof (reproject_note_chars (_apply_repairs_and_ops s gdf).1 (target_epsg s))
        as Hall.
      rewrite Forall_forall in Hall. eapply starts_weaken; [|now apply Hall].
      intros c; rewrite !elem_of_cons, !elem_of_nil; tauto.
    + apply list_elem_of_singleton in Hin. subst m.
      apply (starts_app _ "Read/Process failed: "). first_char.
Qed.

(** X19.  Two jobs of a batch whose file names have the same stem get
    reports of the same name: when the stems of the uploads are not
    pairwise distinct, the names of the entries of the result archive are
    not pairwise distinct either. *)
Theorem archive_names_collide (s : Settings) (ufs : list Upload) :
  ~ NoDup ((fun uf => PyPath.stem (name uf)) <$> ufs) ->
  ~ NoDup (do_batch s ufs).1.*1.
Proof.
  intros Hdup Hnodup. apply Hdup.
  destruct (batch_counts s ufs) as [Hnames _].
  rewrite do_batch_concat in Hnodup. cbn [fst] in Hnodup.
  assert (Hrep : NoDup (report_of <$> ufs)).
  { rewrite <- Hnames. eapply sublist_NoDup; [exact Hnodup|].
    apply fmap_sublist, sublist_filter. }
  unfold report_of in Hrep.
  rewrite (list_fmap_compose (fun uf => PyPath.stem (name uf)) report_name) in Hrep.
  eapply NoDup_fmap_1, Hrep.
Qed.

End ReportLines.

(** ** The page: single-file conversion, Reports tab, EPSG search, wizard *)

Section PageFacts.

Context {Geometry CRS : Type} {lib : External Geometry CRS}.

Local Abbreviation GDF := (GeoDataFrame Geometry CRS).

(** X20.  Converting a loaded file alone and converting it in a batch run
    the same pipeline: when the export goes through, the download offered
    by the single-file conversion has the name and the bytes of the
    artifact the batch adds to the archive; when it raises, the page shows
    "Conversion failed: <error>" and the batch adds the report only. *)
Theorem single_matches_batch (s : Settings) (uf : Upload) (gdf : GDF) (label : string) :
  is_tabular uf = false ->
  _read_vector_any (_save_upload_to uf).1 (_save_upload_to uf).2 = Ok gdf ->
  dict_get (out_fmt s) OUTPUTS = Some label ->
  (exists out_name out_bytes rest text,
      convert_single s gdf (name uf)
      = st_download_button ("Download " +:+ label) out_bytes out_name
                           (download_mime (out_fmt s)) :: rest
      /\ job_entries s uf = [(out_name, out_bytes); (report_of uf, text)])
  \/ (exists e text,
        convert_single s gdf (name uf) = [st_error ("Conversion failed: " +:+ str_exn e)]
        /\ job_entries s uf = [(report_of uf, text)]).
Proof.
  intros Htab Hread Hlabel.
  rewrite job_entries_split, job_report_text.
  unfold job_artifact, convert_single, offer_download, export_of.
  rewrite Htab, Hread. cbn zeta.
  destruct (_apply_repairs_and_ops s gdf) as [g1 n1]. cbn [fst].
  destruct (_reproject g1 (target_epsg s)) as [g2 n2]. cbn [fst].
  destruct (_gdf_to_bytes s g2 (out_fmt s) (PyPath.stem (name uf))).2
    as [[[b n] m]|e].
  - left. rewrite Hlabel. exists n, b. eexists. eexists. split; reflexivity.
  - right. exists e. eexists. split; reflexivity.
Qed.

(** In the single-file load an empty source EPSG stands for 4326: the
    frame that is loaded is the one loaded with the source EPSG 4326. *)
Lemma load_single_default_epsg (dir : Listing) (p : string)
    (lat_col lon_col : option string) :
  (load_single dir p lat_col lon_col "").1 = (load_single dir p lat_col lon_col "4326").1.
Proof.
  unfold load_single.
  destruct (dict_mem _ TAB_INPUTS); [|reflexivity].
  destruct (chosen lat_col) as [lat|]; [|reflexivity].
  destruct (chosen lon_col) as [lon|]; [|reflexivity].
  change (str_or "" "4326") with "4326". change (str_or "4326" "4326") with "4326".
  now destruct (_read_csv_points dir p lat lon "4326").
Qed.

Lemma batch_reports_map (s : Settings) (ufs : list Upload) :
  (do_batch s ufs).2
  = (fun uf => (report_of uf, PyStr.join_lines (report_lines_of s uf))) <$> ufs.
Proof.
  rewrite do_batch_concat. cbn [snd].
  induction ufs as [|uf ufs IH]; [reflexivity|].
  rewrite !fmap_cons. cbn [concat]. now rewrite IH, job_report_text.
Qed.

Lemma reports_tab_nonempty (reports : list (string * string)) :
  reports <> [] ->
  reports_tab reports
  = ((fun r => st_expander r.1 (PyStr.take_chars 8000 r.2)) <$> last_n 5 reports)
    ++ [st_download_button "⬇️ Download reports-only ZIP" (zip_deflated reports)
          "conversion_reports.zip" "application/zip"].
Proof. destruct reports; [congruence | reflexivity]. Qed.

(** X21.  After a batch of at least one job the Reports tab shows one
    expander for each of the last five jobs at most, labelled by the name
    of the report and holding the first 8000 characters of its text, and
    then the download of an archive that holds the reports of all the
    jobs: the report entries of the result archive. *)
Theorem reports_tab_after_batch (s : Settings) (ufs : list Upload) :
  ufs <> [] ->
  reports_tab (do_batch s ufs).2
  = ((fun uf => st_expander (report_of uf)
                  (PyStr.take_chars 8000 (PyStr.join_lines (report_lines_of s uf))))
       <$> last_n 5 ufs)
    ++ [st_download_button "⬇️ Download reports-only ZIP"
          (zip_deflated (filter (fun e => is_report e = true) (do_batch s ufs).1))
          "conversion_reports.zip" "application/zip"]
  /\ length (reports_tab (do_batch s ufs).2) = Nat.min 5 (length ufs) + 1.
Proof.
  intros Hne.
  assert (Htab : reports_tab (do_batch s ufs).2
    = ((fun uf => st_expander (report_of uf)
                    (PyStr.take_chars 8000 (PyStr.join_lines (report_lines_of s uf))))
         <$> last_n 5 ufs)
      ++ [st_download_button "⬇️ Download reports-only ZIP"
            (zip_deflated (filter (fun e => is_report e = true) (do_batch s ufs).1))
            "conversion_reports.zip" "application/zip"]).
  { rewrite <- reports_filter_archive.
    rewrite reports_tab_nonempty
      by (rewrite batch_reports_map; now destruct ufs).
    rewrite batch_reports_map at 1. unfold last_n.
    rewrite length_fmap, <- fmap_drop, <- list_fmap_compose. reflexivity. }
  split; [exact Htab|].
  rewrite Htab, length_app, length_fmap. unfold last_n.
  rewrite length_drop. cbn [length]. lia.
Qed.

End PageFacts.

Section SearchFacts.

Context {Geometry CRS : Type} {lib : External Geometry CRS}.

Local Abbreviation GDF := (GeoDataFrame Geometry CRS).

(** X22.  A search text that is blank once stripped, or a missing pyproj
    module, gives no guess, and the target EPSG typed by the user is left
    as it is. *)
Theorem epsg_search_blank (pyproj : bool) (target q : string) :
  pyproj = false \/ PyText.strip q = EmptyString ->
  find_epsg_guess pyproj q = None
  /\ (apply_epsg_query pyproj target q).1 = target.
Proof.
  intros H.
  assert (Hnone : find_epsg_guess pyproj q = None).
  { unfold find_epsg_guess. destruct H as [-> | ->]; [reflexivity|].
    now destruct (negb pyproj). }
  split; [exact Hnone|].
  unfold apply_epsg_query. rewrite Hnone. now destruct (decide (q = EmptyString)).
Qed.

Lemma lower_digit (a : ascii) : PyText.is_digit a = true -> PyStr.lower_ascii a = a.
Proof. destruct a as [[] [] [] [] [] [] [] []]; (reflexivity || discriminate). Qed.

Lemma lower_digits (str : string) :
  PyText.all_digits str = true -> PyStr.lower str = str.
Proof.
  induction str as [|a str IH]; [reflexivity|].
  cbn [PyText.all_digits PyStr.lower]. intros H.
  apply andb_true_iff in H as [Ha Hs]. now rewrite lower_digit, IH.
Qed.

Lemma isdigit_lower (str : string) :
  PyText.isdigit str = true -> PyStr.lower str = str.
Proof. destruct str; [discriminate|]. apply lower_digits. Qed.

(** X23.  The aliases of the EPSG search are matched whatever the case
    and the surrounding blanks of the text: a text whose stripped,
    lower-cased form is an alias gives the code of that alias. *)
Theorem epsg_search_alias (q alias code : string) :
  (alias, code) ∈ aliases ->
  PyStr.lower (PyText.strip q) = alias ->
  find_epsg_guess true q = Some code.
Proof.
  intros Hin Hq. unfold find_epsg_guess. cbn [negb].
  assert (Hdigit : PyText.isdigit (PyText.strip q) = false).
  { destruct (PyText.isdigit (PyText.strip q)) eqn:Hd; [|reflexivity].
    apply isdigit_lower in Hd as Hl. rewrite Hl in Hq. rewrite Hq in Hd.
    unfold aliases in Hin. rewrite !elem_of_cons, elem_of_nil in Hin.
    destruct Hin as [H|[H|[H|[H|[H|[H|[H|[]]]]]]]];
      injection H as -> _; discriminate Hd. }
  assert (Hne : PyText.strip q <> EmptyString).
  { intros He. rewrite He in Hq. cbn in Hq. subst alias.
    unfold aliases in Hin. rewrite !elem_of_cons, elem_of_nil in Hin.
    destruct Hin as [H|[H|[H|[H|[H|[H|[H|[]]]]]]]]; discriminate H. }
  rewrite decide_False by exact Hne. rewrite Hdigit, Hq.
  unfold aliases in Hin. rewrite !elem_of_cons, elem_of_nil in Hin.
  destruct Hin as [H|[H|[H|[H|[H|[H|[H|[]]]]]]]];
    injection H as -> ->; reflexivity.
Qed.

Lemma alias_value (k v : string) :
  dict_get k aliases = Some v -> (k, v) ∈ aliases.
Proof.
  unfold dict_get. intros H. apply fmap_Some in H as ([i [k' v']] & Hfind & ->).
  apply list_find_Some in Hfind as (Hi & Hk & _). cbn in Hk. subst k'.
  cbn. eapply list_elem_of_lookup_2, Hi.
Qed.

(** X24.  Every guess of the EPSG search is a target the reprojection
    accepts: given that [int] parses the codes of the aliases and the
    decimal form of the code the library reports for the text, a guess is
    parsed by [int], so the reprojection to it never answers with the
    invalid-target note. *)
Theorem epsg_guess_is_valid_target (pyproj : bool) (q guess : string) :
  (forall k v, (k, v) ∈ aliases -> is_Some (py_int v)) ->
  (forall c epsg, crs_from_string (PyText.strip q) = Ok c -> to_epsg c = Some epsg ->
                  is_Some (py_int (pretty epsg))) ->
  find_epsg_guess pyproj q = Some guess ->
  is_Some (py_int guess)
  /\ forall gdf : GDF,
       (_reproject gdf guess).2 <> Some "Invalid target EPSG; kept original CRS.".
Proof.
  intros Halias Hround Hguess.
  assert (Hint : is_Some (py_int guess)).
  { unfold find_epsg_guess in Hguess.
    destruct (negb pyproj); [discriminate|].
    destruct (decide (PyText.strip q = EmptyString)); [discriminate|].
    destruct (if PyText.isdigit (PyText.strip q) then _ else None) as [found|] eqn:Hcode.
    - injection Hguess as <-.
      destruct (PyText.isdigit (PyText.strip q)); [|discriminate].
      destruct (py_int (PyText.strip q)) as [code|] eqn:Hp; [|discriminate].
      destruct (crs_from_epsg code); [|discriminate].
      injection Hcode as <-. rewrite Hp. eauto.
    - destruct (dict_mem _ aliases).
      + apply alias_value in Hguess. eapply Halias, Hguess.
      + destruct (crs_from_string (PyText.strip q)) as [c|] eqn:Hc; [|discriminate].
        destruct (to_epsg c) as [epsg|] eqn:He; [|discriminate].
        destruct (epsg =? 0)%Z; [discriminate|].
        injection Hguess as <-. eapply Hround; eauto. }
  split; [exact Hint|]. intros gdf. destruct Hint as [tgt Htgt].
  unfold _reproject. rewrite Htgt.
  destruct (crs gdf) as [c|]; [|discriminate].
  destruct (decide (to_epsg c = Some tgt)); [discriminate|].
  destruct (to_crs gdf tgt); cbn [snd]; intros [= H]; discriminate H.
Qed.

(** X25.  The column a select box of the CSV wizard shows first is always
    a column of the table: the first column whose lower-cased name is one
    of the recognised names, and the first column of the table when no
    name is recognised. *)
Theorem wizard_default_column (names cols : list string) :
  cols <> [] ->
  exists c,
    default_column names cols = Some c
    /\ c ∈ cols
    /\ is_Some (col_index c cols)
    /\ (guess_column names cols = None ->
        head cols = Some c /\ Forall (fun x => PyStr.lower x ∉ names) cols)
    /\ (forall g, guess_column names cols = Some g ->
        c = g /\ PyStr.lower g ∈ names
        /\ exists i, cols !! i = Some g
                     /\ forall j x, cols !! j = Some x -> j < i -> PyStr.lower x ∉ names).
Proof.
  intros Hne. unfold default_column, selectbox_index.
  assert (Hidx : forall c, c ∈ cols -> is_Some (col_index c cols)).
  { intros c Hc. unfold col_index.
    destruct (list_find_elem_of (fun x => x = c) cols c Hc eq_refl) as [r ->]. eauto. }
  destruct (guess_column names cols) as [g|] eqn:Hg.
  - unfold guess_column in Hg. apply fmap_Some in Hg as ([i g'] & Hfind & ->).
    apply list_find_Some in Hfind as (Hi & Hp & Hbefore). cbn [snd] in *.
    assert (Hin : g' ∈ cols) by (eapply list_elem_of_lookup_2, Hi).
    destruct (list_find_elem_of (fun c => c = g') cols g' Hin eq_refl) as [[j x] Hj].
    rewrite Hj. apply list_find_Some in Hj as (Hjx & -> & _).
    exists g'. split; [exact Hjx|]. split; [exact Hin|]. split; [now apply Hidx|].
    split; [discriminate|].
    intros g [= <-]. split; [reflexivity|]. split; [exact Hp|].
    exists i. split; [exact Hi | exact Hbefore].
  - destruct cols as [|c cols]; [congruence|].
    exists c. split; [reflexivity|]. split; [apply list_elem_of_here|].
    split; [apply Hidx, list_elem_of_here|].
    split; [|discriminate]. intros _. split; [reflexivity|].
    unfold guess_column in Hg. apply fmap_None in Hg.
    now apply list_find_None in Hg.
Qed.

End SearchFacts.

(** ** Which frame a run changes *)

Section StoreFacts.

Context {Geometry CRS : Type} {lib : External Geometry CRS}.

Local Abbreviation GDF := (GeoDataFrame Geometry CRS).
Local Abbreviation Heap := (gmap nat (GeoDataFrame Geometry CRS)).

Lemma set_geometry_at_insert (op : Geometry -> Exc Geometry) (l : nat) (h : Heap)
    (gdf : GDF) :
  set_geometry_at op l (<[l := gdf]> h)
  = match assign_geometry op gdf with
    | Ok gdf' => Ok (<[l := gdf']> h)
    | Raise e => Raise e
    end.
Proof.
  unfold set_geometry_at. rewrite lookup_insert_eq.
  destruct (assign_geometry op gdf); simpl; [|reflexivity].
  now rewrite insert_insert_eq.
Qed.

Lemma apply_in_place_insert (s : Settings) (l : nat) (h : Heap) (gdf : GDF) :
  _apply_repairs_and_ops_in_place s l (<[l := gdf]> h)
  = (<[l := (_apply_repairs_and_ops s gdf).1]> h, (l, (_apply_repairs_and_ops s gdf).2)).
Proof.
  unfold _apply_repairs_and_ops_in_place, _apply_repairs_and_ops.
  set (r1 := match do_make_valid s, make_valid with
             | true, Some mv => match assign_geometry mv gdf with
                                | Ok gdf' => (gdf', [] ++ ["Applied make_valid."])
                                | Raise e => (gdf, [] ++ ["make_valid failed: " +:+ str_exn e])
                                end
             | _, _ => (gdf, [])
             end).
  assert (H1 : match do_make_valid s, make_valid with
               | true, Some mv =>
                   match set_geometry_at mv l (<[l := gdf]> h) with
                   | Ok h' => (h', [] ++ ["Applied make_valid."])
                   | Raise e =>
                       (<[l := gdf]> h, [] ++ ["make_valid failed: " +:+ str_exn e])
                   end
               | _, _ => (<[l := gdf]> h, [])
               end = (<[l := r1.1]> h, r1.2)).
  { subst r1. destruct (do_make_valid s); [|reflexivity].
    destruct make_valid as [mv|]; [|reflexivity].
    rewrite set_geometry_at_insert. now destruct (assign_geometry mv gdf). }
  rewrite H1. destruct r1 as [g1 n1]. cbn [fst snd].
  set (r2 := if use_buffer_fix s then
               match assign_geometry (buffer 0) g1 with
               | Ok gdf' => (gdf', n1 ++ ["Applied buffer(0) fix."])
               | Raise e => (g1, n1 ++ ["buffer(0) failed: " +:+ str_exn e])
               end
             else (g1, n1)).
  assert (H2 : (if use_buffer_fix s then
                  match set_geometry_at (buffer 0) l (<[l := g1]> h) with
                  | Ok h' => (h', n1 ++ ["Applied buffer(0) fix."])
                  | Raise e => (<[l := g1]> h, n1 ++ ["buffer(0) failed: " +:+ str_exn e])
                  end
                else (<[l := g1]> h, n1)) = (<[l := r2.1]> h, r2.2)).
  { subst r2. destruct (use_buffer_fix s); [|reflexivity].
    rewrite set_geometry_at_insert. now destruct (assign_geometry (buffer 0) g1). }
  rewrite H2. destruct r2 as [g2 n2]. cbn [fst snd].
  destruct (do_simplify s && negb (Qle_bool (simplify_tol s) 0)); [|reflexivity].
  rewrite set_geometry_at_insert.
  now destruct (assign_geometry (simplify (simplify_tol s)) g2).
Qed.

(** X26.  Geometry conditioning works on the frame it is given: it
    returns the address it received, the frame at that address is
    afterwards the conditioned frame, and no other frame of the store is
    touched. *)
Theorem conditioning_changes_its_argument (s : Settings) (l : nat) (h : Heap)
    (gdf : GDF) :
  h !! l = Some gdf ->
  _apply_repairs_and_ops_in_place s l h
  = (<[l := (_apply_repairs_and_ops s gdf).1]> h, (l, (_apply_repairs_and_ops s gdf).2)).
Proof.
  intros Hl. rewrite <- (insert_id h l gdf Hl) at 1.
  rewrite apply_in_place_insert. reflexivity.
Qed.

Lemma reproject_in_place_cases (l : nat) (epsg : string) (h : Heap) (gdf : GDF) :
  h !! l = Some gdf ->
  (_reproject_in_place l epsg h = (h, (l, (_reproject gdf epsg).2))
   /\ (_reproject gdf epsg).1 = gdf)
  \/ (_reproject_in_place l epsg h
      = (<[fresh (dom h) := (_reproject gdf epsg).1]> h,
         (fresh (dom h), (_reproject gdf epsg).2))
      /\ exists tgt : Z, (_reproject gdf epsg).2
                         = Some ("Reprojected to EPSG:" +:+ pretty tgt +:+ ".")).
Proof.
  intros Hl. unfold _reproject_in_place, _reproject.
  destruct (py_int epsg) as [tgt|]; [|left; split; reflexivity].
  rewrite Hl.
  destruct (crs gdf) as [c|]; [|left; split; reflexivity].
  destruct (decide (to_epsg c = Some tgt)); [left; split; reflexivity|].
  destruct (to_crs gdf tgt) as [g'|e]; [|left; split; reflexivity].
  right. split; [reflexivity | eauto].
Qed.

(** X27.  Reprojection never changes the frame it is given: either it
    returns that very frame, or, when it transforms, a frame at a new
    address; in both cases every frame that was in the store, the
    argument included, is as before, and the frame at the returned address
    is the reprojected one. *)
Theorem reprojection_spares_its_argument (l : nat) (epsg : string) (h : Heap)
    (gdf : GDF) :
  h !! l = Some gdf ->
  let r := _reproject_in_place l epsg h in
  (forall k, is_Some (h !! k) -> r.1 !! k = h !! k)
  /\ r.1 !! l = Some gdf
  /\ r.1 !! r.2.1 = Some (_reproject gdf epsg).1
  /\ r.2.2 = (_reproject gdf epsg).2
  /\ (r.2.1 = l \/ h !! r.2.1 = None).
Proof.
  intros Hl r. subst r.
  assert (Hfresh : h !! fresh (dom h) = None) by apply not_elem_of_dom, is_fresh.
  destruct (reproject_in_place_cases l epsg h gdf Hl) as [[-> Hsame] | [-> _]];
    cbn [fst snd].
  - rewrite Hsame. repeat split; auto.
  - split; [|split; [|split; [|split]]].
    + intros k [x Hk]. rewrite lookup_insert_ne; [reflexivity|]. congruence.
    + rewrite lookup_insert_ne; [exact Hl|]. congruence.
    + apply lookup_insert_eq.
    + reflexivity.
    + now right.
Qed.

(** X28.  After the single-file conversion the frame the session keeps as
    the last loaded layer (the one a later write to PostGIS sends) is the
    conditioned frame, still in its source CRS: the conditioning has
    changed it in place and the reprojection has not.  The widgets shown
    are those of the conversion of the loaded frame. *)
Theorem session_layer_after_conversion (s : Settings) (l : nat) (uf_name : string)
    (h : Heap) (gdf : GDF) :
  h !! l = Some gdf ->
  (convert_single_in_place s l uf_name h).1 !! l
  = Some (_apply_repairs_and_ops s gdf).1
  /\ crs (_apply_repairs_and_ops s gdf).1 = crs gdf
  /\ (convert_single_in_place s l uf_name h).2 = convert_single s gdf uf_name.
Proof.
  intros Hl. unfold convert_single_in_place, convert_single.
  rewrite <- (insert_id h l gdf Hl) at 1 2. rewrite !apply_in_place_insert.
  destruct (_apply_repairs_and_ops s gdf) as [g1 n1] eqn:Hcond. cbn [fst snd].
  assert (Hl1 : (<[l := g1]> h) !! l = Some g1) by apply lookup_insert_eq.
  assert (Hcrs : crs g1 = crs gdf).
  { pose proof (conditioning_frame s gdf) as (_ & H & _). now rewrite Hcond in H. }
  destruct (reproject_in_place_cases l (target_epsg s) _ g1 Hl1)
    as [[-> Hsame] | [-> _]];
    destruct (_reproject g1 (target_epsg s)) as [g2 n2]; cbn [fst snd] in *;
    cbn beta iota zeta.
  - subst g2. rewrite Hl1. auto.
  - rewrite lookup_insert_eq. cbn [fst snd]. split; [|auto].
    rewrite lookup_insert_ne; [exact Hl1|].
    intros Heq. pose proof (is_fresh (dom (<[l := g1]> h))) as Hf.
    rewrite Heq in Hf. apply Hf, elem_of_dom. eauto.
Qed.

End StoreFacts.

(** ** The further properties on concrete runs *)


Lemma csv_missing_column_error_witness :
  _read_csv_points (lib := Demo.lib) [("p.csv", "x")] "p.csv" "latitude" "lon" "4326"
  = Raise (ValueError "Selected Lat/Lon columns not found.").
Proof.
  apply (csv_missing_column_error (lib := Demo.lib) [("p.csv", "x")]
           "p.csv" "latitude" "lon" "4326" "x" Demo.table); try reflexivity.
  left. apply (bool_decide_unpack _). vm_compute. exact I.
Defined.

Lemma xlsx_reader_errors_witness :
  _read_csv_points (lib := Demo.lib) [("p.xlsx", "x")] "p.xlsx" "lat" "lon" "4326"
  = Raise (RuntimeError "Reading .xlsx needs 'openpyxl'. Install it or export CSV.").
Proof.
  apply (xlsx_reader_errors (lib := Demo.lib) [("p.xlsx", "x")]
           "p.xlsx" "lat" "lon" "4326" "x" (ImportError "No module named 'openpyxl'"));
    try reflexivity.
  discriminate.
Defined.

Lemma csv_points_match_attributes_witness :
  exists (gdf : GeoDataFrame Demo.Geom Z) (ilat ilon : nat),
    _read_csv_points (lib := Demo.lib) [("p.csv", "x")] "p.csv" "lat" "lon" "4326" = Ok gdf
    /\ columns gdf !! ilat = Some "lat"
    /\ columns gdf !! ilon = Some "lon".
Proof.
  destruct (_read_csv_points (lib := Demo.lib) [("p.csv", "x")] "p.csv" "lat" "lon" "4326")
    as [gdf|e] eqn:Hrun; [|vm_compute in Hrun; discriminate Hrun].
  destruct (csv_points_match_attributes (lib := Demo.lib) [("p.csv", "x")]
              "p.csv" "lat" "lon" "4326" gdf Hrun) as (ilat & ilon & Hlat & Hlon & _).
  exists gdf, ilat, ilon. auto.
Defined.


Lemma reproject_twice_witness :
  exists gdf' : GeoDataFrame Demo.Geom Z,
    (_reproject (lib := Demo.lib) (Demo.one_feature "x") "3857").1 = gdf'
    /\ _reproject (lib := Demo.lib) gdf' "3857" = (gdf', None).
Proof.
  destruct (to_crs (lib := Demo.lib) (Demo.one_feature "x") 3857) as [gdf'|e] eqn:Hrun;
    [|vm_compute in Hrun; discriminate Hrun].
  exists gdf'.
  destruct (reproject_twice (lib := Demo.lib) (Demo.one_feature "x") gdf' "3857"
              3857%Z 4326%Z eq_refl eq_refl ltac:(discriminate) Hrun) as [H1 H2].
  - intros dst Hdst. vm_compute in Hdst. injection Hdst as <-. reflexivity.
  - rewrite H1. split; [reflexivity | exact H2].
Defined.

Lemma shapefile_rename_off_witness :
  (_gdf_to_bytes (lib := Demo.lib)
     {| target_epsg := "4326"; do_make_valid := true; use_buffer_fix := false;
        do_simplify := false; simplify_tol := 0; auto_rename_fields := false;
        out_fmt := "shapefile" |}
     Runs.cities "shapefile" "out").1 = [].
Proof.
  rewrite (shapefile_rename_off (lib := Demo.lib)
             {| target_epsg := "4326"; do_make_valid := true; use_buffer_fix := false;
                do_simplify := false; simplify_tol := 0; auto_rename_fields := false;
                out_fmt := "shapefile" |}
             Runs.cities "out" eq_refl).
  reflexivity.
Defined.

Lemma shapefile_rename_settles_witness :
  Forall (fun c => PyStr.len c <= 10)
         (columns (shp_rename (Demo.settings "shapefile") Runs.cities []).1).
Proof.
  apply (shapefile_rename_settles (Demo.settings "shapefile") Runs.cities [] eq_refl).
Defined.


Lemma kml_relabel_unchanged_witness :
  kml_relabel (lib := Demo.lib) (Demo.one_feature "x") = Demo.one_feature "x".
Proof.
  apply (kml_relabel_unchanged (lib := Demo.lib) (Demo.one_feature "x")).
  left. exists 4326%Z. split; reflexivity.
Defined.

Lemma report_closing_line_witness :
  last (report_lines_of (lib := Demo.lib) (Demo.settings "geojson")
          {| name := "a.geojson"; getbuffer := "A" |})
  = Some "Exported: a.geojson".
Proof.
  destruct (report_closing_line (lib := Demo.lib) (Demo.settings "geojson")
              {| name := "a.geojson"; getbuffer := "A" |} eq_refl)
    as (_ & [(n & b & Hart & Hlast) | (e & Hart & _)]).
  - vm_compute in Hart. injection Hart as <- <-. exact Hlast.
  - vm_compute in Hart. discriminate Hart.
Defined.

Lemma failed_export_notes_lost_witness :
  export_notes_of (lib := Demo.lib_no_kml) (Demo.settings "kml")
    {| name := "a.geojson"; getbuffer := "A" |} (Demo.one_feature "A")
  = ["KML write failed (unsupported driver: KML); use GeoJSON/GPKG instead."]
  /\ "KML write failed (unsupported driver: KML); use GeoJSON/GPKG instead."
     ∉ report_lines_of (lib := Demo.lib_no_kml) (Demo.settings "kml")
         {| name := "a.geojson"; getbuffer := "A" |}.
Proof.
  split; [reflexivity|].
  apply (failed_export_notes_lost (lib := Demo.lib_no_kml) (Demo.settings "kml")
           {| name := "a.geojson"; getbuffer := "A" |} (Demo.one_feature "A")
           (LibraryError "unsupported driver: KML") eq_refl eq_refl eq_refl).
  vm_compute. apply list_elem_of_here.
Defined.

Lemma archive_names_collide_witness :
  ~ NoDup (do_batch (lib := Demo.lib) (Demo.settings "geojson")
             [ {| name := "a.geojson"; getbuffer := "A" |};
               {| name := "a.kml"; getbuffer := "B" |} ]).1.*1.
Proof.
  apply archive_names_collide.
  intros Hnodup. apply NoDup_cons in Hnodup as [Hnotin _].
  apply Hnotin. vm_compute. apply list_elem_of_here.
Defined.

Lemma single_matches_batch_witness :
  exists out_name out_bytes rest text,
    convert_single (lib := Demo.lib) (Demo.settings "geojson") (Demo.one_feature "A")
                   "a.geojson"
    = st_download_button "Download GeoJSON (.geojson)" out_bytes out_name
                         "application/geo+json" :: rest
    /\ job_entries (lib := Demo.lib) (Demo.settings "geojson")
                   {| name := "a.geojson"; getbuffer := "A" |}
       = [(out_name, out_bytes); ("a_report.txt", text)].
Proof.
  destruct (single_matches_batch (lib := Demo.lib) (Demo.settings "geojson")
              {| name := "a.geojson"; getbuffer := "A" |} (Demo.one_feature "A")
              "GeoJSON (.geojson)" eq_refl eq_refl eq_refl)
    as [(n & b & rest & text & Hs & Hb) | (e & text & Hs & _)].
  - exists n, b, rest, text. split; [exact Hs | exact Hb].
  - vm_compute in Hs. discriminate Hs.
Defined.

Lemma reports_tab_after_batch_witness :
  length (reports_tab (lib := Demo.lib)
            (do_batch (lib := Demo.lib) (Demo.settings "geojson") Runs.uploads).2)
  = 4.
Proof.
  apply (reports_tab_after_batch (lib := Demo.lib) (Demo.settings "geojson")
           Runs.uploads).
  discriminate.
Defined.

Lemma epsg_search_blank_witness :
  find_epsg_guess (lib := Demo.lib) true "   " = None
  /\ (apply_epsg_query (lib := Demo.lib) true "3857" "   ").1 = "3857".
Proof.
  apply (epsg_search_blank (lib := Demo.lib) true "3857" "   "). right. reflexivity.
Defined.

Lemma epsg_search_alias_witness :
  find_epsg_guess (lib := Demo.lib) true "  Web Mercator " = Some "3857".
Proof.
  apply (epsg_search_alias (lib := Demo.lib) "  Web Mercator " "web mercator" "3857").
  - vm_compute. do 2 apply list_elem_of_further. apply list_elem_of_here.
  - reflexivity.
Defined.

Lemma epsg_guess_is_valid_target_witness :
  find_epsg_guess (lib := Demo.lib) true "EPSG:3857" = Some "3857"
  /\ is_Some (py_int (External := Demo.lib) "3857").
Proof.
  split; [reflexivity|].
  apply (epsg_guess_is_valid_target (lib := Demo.lib) true "EPSG:3857" "3857").
  - intros k v Hin. unfold aliases in Hin. rewrite !elem_of_cons, elem_of_nil in Hin.
    destruct Hin as [H|[H|[H|[H|[H|[H|[H|[]]]]]]]];
      injection H as _ ->; vm_compute; eauto.
  - intros c epsg Hc He. vm_compute in Hc. injection Hc as <-.
    vm_compute in He. injection He as <-. vm_compute. eauto.
  - reflexivity.
Defined.

Lemma wizard_default_column_witness :
  default_column lat_names ["Name"; "LAT"; "lon"] = Some "LAT"
  /\ default_column lon_names ["Name"; "LAT"; "lon"] = Some "lon"
  /\ default_column lat_names ["id"; "label"] = Some "id".
Proof.
  destruct (wizard_default_column lat_names ["Name"; "LAT"; "lon"] ltac:(discriminate))
    as (c & Hc & _).
  split; [|split]; reflexivity.
Defined.

Lemma conditioning_changes_its_argument_witness :
  (_apply_repairs_and_ops_in_place (lib := Demo.lib) (Demo.settings "geojson") 0
     DemoStore.ring).1 !! 0
  = Some {| columns := []; features := [ {| attrs := []; geom := Demo.Ring true |} ];
            crs := None |}.
Proof.
  rewrite (conditioning_changes_its_argument (lib := Demo.lib) (Demo.settings "geojson") 0
             DemoStore.ring DemoStore.open_ring) by reflexivity.
  cbn [fst]. rewrite lookup_insert_eq. reflexivity.
Defined.

Lemma reprojection_spares_its_argument_witness :
  (_reproject_in_place (lib := Demo.lib) 0 "3857" DemoStore.point).1 !! 0
  = Some (Demo.one_feature "x").
Proof.
  apply (reprojection_spares_its_argument (lib := Demo.lib) 0 "3857"
           DemoStore.point (Demo.one_feature "x")).
  reflexivity.
Defined.

Lemma session_layer_after_conversion_witness :
  crs <$> ((convert_single_in_place (lib := Demo.lib) DemoStore.to_web_mercator
              0 "a.geojson" DemoStore.point).1 !! 0)
  = Some (Some 4326%Z).
Proof.
  destruct (session_layer_after_conversion (lib := Demo.lib) DemoStore.to_web_mercator
              0 "a.geojson" DemoStore.point (Demo.one_feature "x") eq_refl)
    as (Hl & Hcrs & _).
  rewrite Hl. cbn [fmap option_fmap option_map]. now rewrite Hcrs.
Defined.
